(** * Clipboard Drop: the clip store, its retention and dedup policy,
      the preview renderer and the copy-back handler.

    A shallow embedding of [clipboard_drop.py].  Every function of the
    program that touches the clip directory, the settings file, the
    floating window or the system pasteboard is a computation in a small
    state-and-exception monad over the part of the machine it uses. *)

From Stdlib Require Import QArith Qround Ascii String.
From stdpp Require Import gmap strings list fin_maps pretty sorting.

Open Scope string_scope.
Open Scope Z_scope.

(** ** Python values that reach the store *)

(** [read_clipboard] hands [save_clip] either a [str] or a [bytes]. *)
Inductive pydata :=
| DStr (s : string)
| DBytes (b : list Byte.byte).

(** The exceptions the modelled code can raise. *)
Inductive exn :=
| JSONDecodeError
| TypeError
| IndexError
| FileNotFoundError.

Inductive result (A : Type) :=
| Ok (a : A)
| Raise (e : exn).
Arguments Ok {A} a.
Arguments Raise {A} e.

(** ** Clip records

    A record of [clips.json].  [save_clip] is the only writer of records
    and builds exactly these two shapes:
    [{id, type: "text", content, timestamp, preview}] and
    [{id, type: "image", filename, timestamp, preview}]. *)
Inductive clip :=
| TextClip (id : Z) (content : string) (timestamp : Z) (preview : string)
| ImageClip (id : Z) (filename : string) (timestamp : Z) (preview : string).

Definition clip_id (c : clip) : Z :=
  match c with TextClip i _ _ _ | ImageClip i _ _ _ => i end.


Definition clip_preview (c : clip) : string :=
  match c with TextClip _ _ _ p | ImageClip _ _ _ p => p end.

(** [clip["type"]] *)
Definition clip_type_of (c : clip) : string :=
  match c with TextClip _ _ _ _ => "text" | ImageClip _ _ _ _ => "image" end.

(** The blob a record owns, if it is an image record. *)
Definition clip_blob (c : clip) : option string :=
  match c with ImageClip _ f _ _ => Some f | TextClip _ _ _ _ => None end.

(** ** Settings *)

Record window_cfg := WindowCfg
  { cfg_width : option Z; cfg_height : option Z; cfg_opacity : option Q }.

(** A parsed [settings.json]: a JSON object whose keys may be missing. *)
Record settings := Settings
  { s_max_clips : option Z; s_window : option window_cfg }.

(** [{"max_clips": 50, "window": {"width": 700, "height": 600, "opacity": 0.95}}] *)
Definition default_settings : settings :=
  Settings (Some 50) (Some (WindowCfg (Some 700) (Some 600) (Some (95 # 100)))).

(** [d.get(key, default)] on an optional key. *)
Definition get {A} (field : option A) (dflt : A) : A := default dflt field.

(** ** The files

    [CLIPS_DIR] may not exist yet; when it does it holds the index
    [clips.json] and the image blobs, keyed by file name (records name
    their blobs by plain file names, none of them the index's).  A file
    that exists but does not parse makes [json.load] raise. *)
Inductive json_file (A : Type) :=
| Absent
| Malformed
| Parsed (a : A).
Arguments Absent {A}.
Arguments Malformed {A}.
Arguments Parsed {A} a.

Record clips_dir := ClipsDir
  { CLIPS_JSON : json_file (list clip);
    blobs : gmap string (list Byte.byte) }.

Record world := World
  { CLIPS_DIR : option clips_dir;
    SETTINGS_PATH : json_file settings }.

(** ** The monad: state [world], exceptions [exn] *)

Definition M (A : Type) : Type := world → result A * world.

Definition ret {A} (a : A) : M A := λ w, (Ok a, w).
Definition raise {A} (e : exn) : M A := λ w, (Raise e, w).
Definition bind {A B} (m : M A) (k : A → M B) : M B :=
  λ w, match m w with
       | (Ok a, w') => k a w'
       | (Raise e, w') => (Raise e, w')
       end.

#[global] Instance M_ret : MRet M := @ret.
#[global] Instance M_bind : MBind M := λ A B k m, bind m k.

(** ** File-system primitives *)

Definition dir_index (w : world) : json_file (list clip) :=
  match CLIPS_DIR w with Some d => CLIPS_JSON d | None => Absent end.

Definition dir_blobs (w : world) : gmap string (list Byte.byte) :=
  match CLIPS_DIR w with Some d => blobs d | None => ∅ end.

(** [(CLIPS_DIR / name).exists()] *)
Definition exists_ (name : string) : M bool :=
  λ w, (Ok (bool_decide (is_Some (dir_blobs w !! name))), w).

(** [(CLIPS_DIR / name).stat().st_size] *)
Definition st_size (name : string) : M Z :=
  λ w, match dir_blobs w !! name with
       | Some b => (Ok (Z.of_nat (length b)), w)
       | None => (Raise FileNotFoundError, w)
       end.

(** [(CLIPS_DIR / name).write_bytes(data)]: the buffer is type-checked
    before the file is opened, and the open fails in a missing directory. *)
Definition write_bytes (name : string) (data : pydata) : M unit :=
  λ w, match data with
       | DStr _ => (Raise TypeError, w)
       | DBytes b =>
           match CLIPS_DIR w with
           | None => (Raise FileNotFoundError, w)
           | Some d =>
               (Ok (), World (Some (ClipsDir (CLIPS_JSON d) (<[name := b]> (blobs d))))
                             (SETTINGS_PATH w))
           end
       end.

(** [(CLIPS_DIR / name).unlink()] *)
Definition unlink (name : string) : M unit :=
  λ w, match CLIPS_DIR w with
       | Some d =>
           match blobs d !! name with
           | Some _ =>
               (Ok (), World (Some (ClipsDir (CLIPS_JSON d) (delete name (blobs d))))
                             (SETTINGS_PATH w))
           | None => (Raise FileNotFoundError, w)
           end
       | None => (Raise FileNotFoundError, w)
       end.

(** [(CLIPS_DIR / name).read_bytes()] *)
Definition read_bytes (name : string) : M (list Byte.byte) :=
  λ w, match dir_blobs w !! name with
       | Some b => (Ok b, w)
       | None => (Raise FileNotFoundError, w)
       end.

(** ** Settings and index access *)

Definition load_settings : M settings :=
  λ w, match SETTINGS_PATH w with
       | Parsed s => (Ok s, w)
       | Malformed => (Raise JSONDecodeError, w)
       | Absent => (Ok default_settings, w)
       end.

Definition load_clips : M (list clip) :=
  λ w, match dir_index w with
       | Parsed clips => (Ok clips, w)
       | Malformed => (Raise JSONDecodeError, w)
       | Absent => (Ok [], w)
       end.

(** [CLIPS_DIR.mkdir(parents=True, exist_ok=True)], then the index is
    rewritten. *)
Definition save_clips (clips : list clip) : M unit :=
  λ w, (Ok (), World (Some (ClipsDir (Parsed clips) (dir_blobs w))) (SETTINGS_PATH w)).

(** ** Clock readings

    [time.time()] is a float; a reading is modelled by the exact rational
    it stands for, and is an explicit argument of each function that
    reads the clock. *)

(** [int(x)]: truncation towards zero. *)
Definition py_int (x : Q) : Z := Z.quot (Qnum x) (Z.pos (Qden x)).

(** [x < y] on clock values. *)
Definition Qltb (x y : Q) : bool := negb (Qle_bool y x).

Definition relative_time (now : Q) (timestamp : Z) : string :=
  let diff := (now - inject_Z timestamp)%Q in
  if Qltb diff 60 then "just now"
  else if Qltb diff 3600 then
    let mins := py_int (diff / 60) in
    pretty mins +:+ " min ago"
  else if Qltb diff 86400 then
    let hrs := py_int (diff / 3600) in
    pretty hrs +:+ " hr" +:+ (if bool_decide (hrs > 1) then "s" else "") +:+ " ago"
  else if Qltb diff 172800 then "yesterday"
  else
    let days := py_int (diff / 86400) in
    pretty days +:+ " days ago".

(** ** Platform services

    What the program obtains from AppKit and from Python's standard
    library without any repository code behind it. *)
Class Platform := {
  (** [NSBitmapImageRep.initWithData_]: pixel width and height of an
      encoded image, or nothing when the data does not decode. *)
  image_dims : list Byte.byte → option (Z * Z);
  (** [time.strftime("%Y-%m-%d %H:%M:%S", time.localtime(t))] *)
  strftime_local : Z → string;
  (** [base64.b64encode(b).decode("ascii")] *)
  b64encode : list Byte.byte → string
}.

(** ** String helpers *)

(** [s.replace(a, b)] for one-character [a] and [b]. *)
Fixpoint replace_char (a b : ascii) (s : string) : string :=
  match s with
  | EmptyString => EmptyString
  | String c s' => String (if Ascii.eqb c a then b else c) (replace_char a b s')
  end.

(** [s[:n]] *)
Definition str_take (n : nat) (s : string) : string := substring 0 n s.

Definition newline : ascii := "010"%char.

(** [data[:80].replace("\n", " ")] on a [str]. *)
Definition text_preview (s : string) : string :=
  replace_char newline " "%char (str_take 80 s).

(** [len(data)] *)
Definition py_len (data : pydata) : Z :=
  match data with
  | DStr s => Z.of_nat (String.length s)
  | DBytes b => Z.of_nat (length b)
  end.

(** [clips[0]["content"] == data]: a [str] never equals a [bytes]. *)
Definition content_eq (content : string) (data : pydata) : bool :=
  match data with
  | DStr s => bool_decide (content = s)
  | DBytes _ => false
  end.

(** ** The clip store *)

(** The auto-prune loop of [save_clip].  [clips.pop()] takes the last
    element, so the loop runs over the list seen from its tail:
    [rclips] is [clips] reversed. *)
Fixpoint prune_from_tail (rclips : list clip) (max_clips : Z) : M (list clip) :=
  if bool_decide (Z.of_nat (length rclips) > max_clips) then
    match rclips with
    | [] => raise IndexError
    | removed :: rest =>
        match removed with
        | ImageClip _ filename _ _ =>
            present ← exists_ filename;
            if present : bool then unlink filename else mret ()
        | TextClip _ _ _ _ => mret ()
        end;;
        prune_from_tail rest max_clips
    end
  else mret rclips.

Definition auto_prune (clips : list clip) (max_clips : Z) : M (list clip) :=
  rclips ← prune_from_tail (rev clips) max_clips;
  mret (rev rclips).

Section Store.
Context `{Platform}.

(** The caption of an image record. *)
Definition image_preview (data : pydata) : string :=
  match data with
  | DBytes b =>
      match image_dims b with
      | Some (w, h) => "Screenshot (" +:+ pretty w +:+ "x" +:+ pretty h +:+ ")"
      | None => "Image"
      end
  | DStr _ => "Image"
  end.

(** [save_clip(clip_type, data)]; [now] is the value of [time.time()]. *)
Definition save_clip (now : Q) (clip_type : string) (data : pydata) : M bool :=
  clips ← load_clips;
  settings ← load_settings;
  let max_clips := get (s_max_clips settings) 50 in
  let ts := py_int now in
  let finish (clips : list clip) : M bool :=
    clips ← auto_prune clips max_clips;
    save_clips clips;;
    mret true in
  if bool_decide (clip_type = "text") then
    let dup := match clips with
               | TextClip _ content _ _ :: _ => content_eq content data
               | _ => false
               end in
    if dup then mret false
    else
      match data with
      | DStr s =>
          let clip := TextClip ts s ts (text_preview s) in
          finish (clip :: clips)
      | DBytes _ =>
          (* [bytes.replace] rejects the [str] arguments *)
          raise TypeError
      end
  else if bool_decide (clip_type = "image") then
    dup ← match clips with
          | ImageClip _ prev_file _ _ :: _ =>
              present ← exists_ prev_file;
              if present : bool then
                size ← st_size prev_file;
                mret (bool_decide (size = py_len data))
              else mret false
          | _ => mret false
          end;
    if dup : bool then mret false
    else
      let filename := "img_" +:+ pretty ts +:+ ".png" in
      write_bytes filename data;;
      let preview := image_preview data in
      finish (ImageClip ts filename ts preview :: clips)
  else finish clips.

(** [clear_all_clips()] *)
Fixpoint remove_blobs (clips : list clip) : M unit :=
  match clips with
  | [] => mret ()
  | c :: rest =>
      match c with
      | ImageClip _ filename _ _ =>
          present ← exists_ filename;
          if present : bool then unlink filename else mret ()
      | TextClip _ _ _ _ => mret ()
      end;;
      remove_blobs rest
  end.

Definition clear_all_clips : M unit :=
  clips ← load_clips;
  remove_blobs clips;;
  save_clips [].

(** ** The preview renderer *)

Definition dq : string := String "034"%char EmptyString.

(** [html.escape(text)], which also escapes both quote characters. *)
Fixpoint html_escape (s : string) : string :=
  match s with
  | EmptyString => EmptyString
  | String c s' =>
      (if Ascii.eqb c "&"%char then "&amp;"
       else if Ascii.eqb c "<"%char then "&lt;"
       else if Ascii.eqb c ">"%char then "&gt;"
       else if Ascii.eqb c "034"%char then "&quot;"
       else if Ascii.eqb c "'"%char then "&#x27;"
       else String c EmptyString) +:+ html_escape s'
  end.

Definition PREVIEW_CSS : string := "
body {
    font-family: -apple-system, BlinkMacSystemFont, " +:+ dq +:+ "Segoe UI" +:+ dq +:+ ", Helvetica, Arial, sans-serif;
    font-size: 14px;
    line-height: 1.6;
    color: #e6edf3;
    background: #0d1117;
    padding: 24px 32px;
    margin: 0;
    -webkit-font-smoothing: antialiased;
}
pre {
    background: #161b22;
    padding: 16px;
    border-radius: 6px;
    overflow-x: auto;
    line-height: 1.45;
    border: 1px solid #30363d;
    font-family: ui-monospace, SFMono-Regular, " +:+ dq +:+ "SF Mono" +:+ dq +:+ ", Menlo, monospace;
    font-size: 13px;
    color: #e6edf3;
    white-space: pre-wrap;
    word-wrap: break-word;
}
.image-container {
    display: flex;
    justify-content: center;
    align-items: center;
    min-height: 200px;
    padding: 16px;
}
.image-container img {
    max-width: 100%;
    max-height: 80vh;
    border-radius: 6px;
    border: 1px solid #30363d;
}
.clip-meta {
    color: #8b949e;
    font-size: 12px;
    margin-bottom: 12px;
    padding-bottom: 8px;
    border-bottom: 1px solid #30363d;
    display: flex;
    justify-content: space-between;
    align-items: center;
}
.copy-btn {
    background: #21262d;
    color: #8b949e;
    border: 1px solid #30363d;
    border-radius: 6px;
    padding: 4px 12px;
    font-size: 12px;
    cursor: pointer;
    font-family: -apple-system, BlinkMacSystemFont, sans-serif;
    transition: all 0.15s ease;
}
.copy-btn:hover { background: #30363d; color: #e6edf3; }
.copy-btn.copied { background: #238636; border-color: #238636; color: #fff; }
".

(** The part of both documents up to the clip header, and the script
    that closes them. *)
Definition doc_head (label time_str : string) : string :=
  "<!DOCTYPE html>
<html><head>
<meta charset=" +:+ dq +:+ "utf-8" +:+ dq +:+ ">
<style>" +:+ PREVIEW_CSS +:+ "</style>
</head><body>
<div class=" +:+ dq +:+ "clip-meta" +:+ dq +:+ ">
    <span>" +:+ label +:+ " &middot; " +:+ time_str +:+ "</span>
    <button class=" +:+ dq +:+ "copy-btn" +:+ dq +:+ " onclick=" +:+ dq +:+ "copyClip(this)" +:+ dq +:+ ">Copy</button>
</div>
".

Definition doc_script : string :=
  "<script>
function copyClip(btn) {
    window.webkit.messageHandlers.copyClip.postMessage('copy');
    btn.textContent = 'Copied!';
    btn.classList.add('copied');
    setTimeout(() => { btn.textContent = 'Copy'; btn.classList.remove('copied'); }, 1500);
}
</script>
</body></html>".

Definition render_text_preview (text : string) (timestamp : Z) : string :=
  let escaped := html_escape text in
  let time_str := strftime_local timestamp in
  doc_head "Text clip" time_str +:+
  "<pre>" +:+ escaped +:+ "</pre>
" +:+ doc_script.

Definition render_image_preview (filename : string) (timestamp : Z) : M string :=
  present ← exists_ filename;
  if negb present then
    mret ("<html><body><p>Image not found: " +:+ filename +:+ "</p></body></html>")
  else
    img_data ← read_bytes filename;
    let b64 := b64encode img_data in
    let time_str := strftime_local timestamp in
    mret (doc_head "Image clip" time_str +:+
          "<div class=" +:+ dq +:+ "image-container" +:+ dq +:+ ">
    <img src=" +:+ dq +:+ "data:image/png;base64," +:+ b64 +:+ dq +:+ ">
</div>
" +:+ doc_script).

(** ** The floating window *)

(** The panel with its web view: the geometry read from the settings,
    the title, whether it is on screen, and the loaded document. *)
Record panel := Panel
  { panel_width : Z; panel_height : Z; panel_alpha : Q;
    panel_title : string; panel_visible : bool; webview_html : string }.

Record FloatingWindow := MkFloatingWindow
  { _panel : option panel;
    _current_clip_id : option Z;
    _current_clip : option clip }.

(** [FloatingWindow.__init__] *)
Definition FloatingWindow_init : FloatingWindow := MkFloatingWindow None None None.

Definition _ensure_panel (self : FloatingWindow) : M FloatingWindow :=
  match _panel self with
  | Some _ => mret self
  | None =>
      settings ← load_settings;
      let win_cfg := get (s_window settings) (WindowCfg None None None) in
      let width := get (cfg_width win_cfg) 700 in
      let height := get (cfg_height win_cfg) 600 in
      let opacity := get (cfg_opacity win_cfg) (95 # 100) in
      mret (MkFloatingWindow (Some (Panel width height opacity "" false ""))
                             (_current_clip_id self) (_current_clip self))
  end.

Definition show_clip (self : FloatingWindow) (clip : clip) : M FloatingWindow :=
  self ← _ensure_panel self;
  '(html, title) ← match clip with
                   | TextClip _ content timestamp preview =>
                       mret (render_text_preview content timestamp, str_take 50 preview)
                   | ImageClip _ filename timestamp preview =>
                       html ← render_image_preview filename timestamp;
                       mret (html, preview)
                   end;
  mret (MkFloatingWindow
          ((λ p, Panel (panel_width p) (panel_height p) (panel_alpha p) title true html)
             <$> _panel self)
          (Some (clip_id clip)) (Some clip)).

Definition hide (self : FloatingWindow) : FloatingWindow :=
  MkFloatingWindow
    ((λ p, Panel (panel_width p) (panel_height p) (panel_alpha p)
                 (panel_title p) false (webview_html p)) <$> _panel self)
    (_current_clip_id self) (_current_clip self).

Definition toggle_clip (self : FloatingWindow) (clip : clip) : M FloatingWindow :=
  match _panel self with
  | Some p =>
      if panel_visible p && bool_decide (_current_clip_id self = Some (clip_id clip))
      then mret (hide self)
      else show_clip self clip
  | None => show_clip self clip
  end.

(** ** The system pasteboard and the copy-back handler *)

Inductive pasteboard_type :=
| NSPasteboardTypeString
| NSPasteboardTypePNG
| NSPasteboardTypeTIFF.

(** What the general pasteboard holds: one datum per declared type. *)
Definition pasteboard := list (pasteboard_type * pydata).

Definition clearContents (pb : pasteboard) : pasteboard := [].
Definition setString_forType_ (s : string) (t : pasteboard_type) (pb : pasteboard)
  : pasteboard := (pb ++ [(t, DStr s)])%list.
Definition setData_forType_ (d : list Byte.byte) (t : pasteboard_type) (pb : pasteboard)
  : pasteboard := (pb ++ [(t, DBytes d)])%list.

(** [_CopyMessageHandler.userContentController_didReceiveScriptMessage_];
    [floating_window] is the handler's [_floating_window] attribute. *)
Definition userContentController_didReceiveScriptMessage_
    (floating_window : option FloatingWindow) (pb : pasteboard) : M pasteboard :=
  match floating_window with
  | None => mret pb
  | Some fw =>
      match _current_clip fw with
      | None => mret pb
      | Some clip =>
          let pb := clearContents pb in
          match clip with
          | TextClip _ content _ _ =>
              mret (setString_forType_ content NSPasteboardTypeString pb)
          | ImageClip _ filename _ _ =>
              present ← exists_ filename;
              if present : bool then
                img_data ← read_bytes filename;
                mret (setData_forType_ img_data NSPasteboardTypePNG pb)
              else mret pb
          end
      end
  end.

End Store.

(** ** Runs of captures *)

Record capture := Capture
  { cap_now : Q; cap_type : string; cap_data : pydata }.

(** One [save_clip] call per capture, in order; the run stops at the
    first exception. *)
Fixpoint save_all `{Platform} (caps : list capture) : M (list bool) :=
  match caps with
  | [] => mret []
  | c :: rest =>
      saved ← save_clip (cap_now c) (cap_type c) (cap_data c);
      others ← save_all rest;
      mret (saved :: others)
  end.

(** ** Vocabulary of the statements *)

(** [List()]: the sequence a load of the index yields. *)
Definition stored (w : world) : result (list clip) := fst (load_clips w).

(** The value [save_clip] reads for [max_clips]. *)
Definition max_clips_of (w : world) : result Z :=
  match fst (load_settings w) with
  | Ok s => Ok (get (s_max_clips s) 50)
  | Raise e => Raise e
  end.

(** Whether a blob file is on disk. *)
Definition on_disk (name : string) (w : world) : Prop :=
  is_Some (dir_blobs w !! name).

(** The blob directory after [f] has been applied to its files. *)
Definition map_blobs (f : gmap string (list Byte.byte) → gmap string (list Byte.byte))
    (w : world) : world :=
  match CLIPS_DIR w with
  | Some d => World (Some (ClipsDir (CLIPS_JSON d) (f (blobs d)))) (SETTINGS_PATH w)
  | None => w
  end.

Definition remove_blob (c : clip) (b : gmap string (list Byte.byte))
  : gmap string (list Byte.byte) :=
  match clip_blob c with Some f => delete f b | None => b end.

(** The blobs left once the records [cs] have been evicted. *)
Definition evict (cs : list clip) (b : gmap string (list Byte.byte))
  : gmap string (list Byte.byte) := foldr remove_blob b cs.

(** The record a text capture builds. *)
Definition text_record (now : Q) (s : string) : clip :=
  TextClip (py_int now) s (py_int now) (text_preview s).

(** The blob name an image capture writes. *)
Definition blob_name (now : Q) : string := "img_" +:+ pretty (py_int now) +:+ ".png".

(** The record an image capture builds. *)
Definition image_record `{Platform} (now : Q) (b : list Byte.byte) : clip :=
  ImageClip (py_int now) (blob_name now) (py_int now) (image_preview (DBytes b)).

(** The world [save_clip] leaves once [clips] has been pruned to
    [max_clips] and persisted. *)
Definition persisted (clips : list clip) (max_clips : Z) (w : world) : world :=
  World (Some (ClipsDir (Parsed (take (Z.to_nat max_clips) clips))
                        (evict (drop (Z.to_nat max_clips) clips) (dir_blobs w))))
        (SETTINGS_PATH w).

(** The head test of the text branch. *)
Definition text_dup (clips : list clip) (s : string) : bool :=
  match clips with
  | TextClip _ content _ _ :: _ => bool_decide (content = s)
  | _ => false
  end.

(** The head test of the image branch. *)
Definition image_dup (clips : list clip) (n : Z) (w : world) : bool :=
  match clips with
  | ImageClip _ prev_file _ _ :: _ =>
      match dir_blobs w !! prev_file with
      | Some b => bool_decide (Z.of_nat (length b) = n)
      | None => false
      end
  | _ => false
  end.

(** The world once a blob has been written. *)
Definition written (name : string) (b : list Byte.byte) (w : world) : world :=
  map_blobs (insert name b) w.

Definition clip_content (c : clip) : option string :=
  match c with TextClip _ s _ _ => Some s | ImageClip _ _ _ _ => None end.

(** The blob names of a sequence of records. *)
Definition names_of (cs : list clip) : list string := omap clip_blob cs.

(** [relative_time] as a function of the age [diff] alone. *)
Definition age_label (diff : Q) : string :=
  if Qltb diff 60 then "just now"
  else if Qltb diff 3600 then pretty (py_int (diff / 60)) +:+ " min ago"
  else if Qltb diff 86400 then
    pretty (py_int (diff / 3600)) +:+ " hr"
      +:+ (if bool_decide (py_int (diff / 3600) > 1) then "s" else "") +:+ " ago"
  else if Qltb diff 172800 then "yesterday"
  else pretty (py_int (diff / 86400)) +:+ " days ago".

Definition not_found_document (filename : string) : string :=
  "<html><body><p>Image not found: " +:+ filename +:+ "</p></body></html>".

(** The record a capture of a known kind builds. *)
Definition record_of `{Platform} (c : capture) : option clip :=
  if bool_decide (cap_type c = "text") then
    match cap_data c with
    | DStr s => Some (text_record (cap_now c) s)
    | DBytes _ => None
    end
  else if bool_decide (cap_type c = "image") then
    match cap_data c with
    | DBytes d => Some (image_record (cap_now c) d)
    | DStr _ => None
    end
  else None.

(** The records a run of captures builds, oldest first. *)
Definition records_of `{Platform} (caps : list capture) : list clip :=
  omap record_of caps.

Definition known_kind (c : capture) : Prop :=
  cap_type c = "text" ∨ cap_type c = "image".

(** ** Store invariants *)

(** Every stored image record has its blob on disk. *)
Definition blob_consistent (w : world) : Prop :=
  ∀ clips c name,
    stored w = Ok clips → c ∈ clips → clip_blob c = Some name → on_disk name w.

(** Every blob on disk is named by a stored record. *)
Definition orphan_free (w : world) : Prop :=
  ∀ clips name, stored w = Ok clips → on_disk name w → name ∈ names_of clips.

(** The blob name of a capture second: [f"img_{ts}.png"]. *)
Definition sec_name (ts : Z) : string := "img_" +:+ pretty ts +:+ ".png".

(** The second a capture falls in. *)
Definition cap_sec (c : capture) : Z := py_int (cap_now c).

(** A character that opens or closes no tag and no attribute value. *)
Definition markup_free (c : ascii) : Prop :=
  c ≠ "<"%char ∧ c ≠ ">"%char ∧ c ≠ "034"%char ∧ c ≠ "'"%char.

(** ** The menu bar application *)


(** [rumps.notification(title, subtitle, message)] *)
Record notification := Notification
  { n_title : string; n_subtitle : string; n_message : string }.

Section App.
Context `{Platform}.

(** [ClipboardDropApp._on_save_clipboard], up to the notification it
    posts; [clipboard] is what [read_clipboard()] returned, nothing for
    [(None, None)].  The menu rebuild that ends the method reads the index
    again and touches neither the files nor the notification. *)
Definition _on_save_clipboard (now : Q) (clipboard : option (string * pydata))
  : M notification :=
  match clipboard with
  | None => mret (Notification "Clipboard Drop" "" "Clipboard is empty")
  | Some (clip_type, data) =>
      saved ← save_clip now clip_type data;
      if saved : bool then
        clips ← load_clips;
        let preview := match clips with c :: _ => clip_preview c | [] => "" end in
        mret (Notification "Clipboard Drop" "Saved" (str_take 60 preview))
      else
        mret (Notification "Clipboard Drop" "" "Duplicate — already saved")
  end.

End App.

(** ** Sample inputs *)

(** A platform to evaluate the model on: an image decodes as a strip one
    pixel high and as wide as its byte count. *)
Definition sample_platform : Platform :=
  {| image_dims := λ b, Some (Z.of_nat (length b), 1);
     strftime_local := λ t, pretty t;
     b64encode := λ _, "" |}.

(** No clip directory, no settings file. *)
Definition fresh_world : world := World None Absent.

(** An empty clip directory and [{"max_clips": n}] as settings. *)
Definition empty_store (n : Z) : world :=
  World (Some (ClipsDir (Parsed []) ∅)) (Parsed (Settings (Some n) None)).

(** A store whose only record is an image record with no blob on disk. *)
Definition orphan : clip := ImageClip 5 "img_5.png" 5 "Image".
Definition orphan_store : world :=
  World (Some (ClipsDir (Parsed [orphan]) ∅)) Absent.

Definition png1 : list Byte.byte := [Byte.x89].
Definition png2 : list Byte.byte := [Byte.x89; Byte.x50].
Definition png2' : list Byte.byte := [Byte.x50; Byte.x89].

(** Three saved captures into a store of capacity one. *)
Definition sample_run : list capture :=
  [Capture 5 "image" (DBytes png1); Capture 6 "text" (DStr "a");
   Capture 7 "text" (DStr "b")].

(** Three captures in the same second into a store of capacity one: the
    first image record is dropped and its blob deleted, then the third
    capture writes a blob of the same name. *)
Definition same_second_run : list capture :=
  [Capture (51 # 10) "image" (DBytes png1); Capture (53 # 10) "text" (DStr "a");
   Capture (55 # 10) "image" (DBytes png2)].

(** Two image captures in the same second into a store of capacity one. *)
Definition overwriting_run : list capture :=
  [Capture (51 # 10) "image" (DBytes png1); Capture (55 # 10) "image" (DBytes png2)].

(** A store whose only record is an image record backed by its blob. *)
Definition backed_store : world :=
  World (Some (ClipsDir (Parsed [orphan]) {[ "img_5.png" := png1 ]})) Absent.

(** The same store under [{"max_clips": -1}]. *)
Definition negative_store : world :=
  World (Some (ClipsDir (Parsed [orphan]) {[ "img_5.png" := png1 ]}))
        (Parsed (Settings (Some (-1)) None)).

(** A clip directory whose index does not parse. *)
Definition corrupt_store : world :=
  World (Some (ClipsDir Malformed {[ "img_5.png" := png1 ]})) Absent.

(** A window showing [orphan]. *)
Definition orphan_window : FloatingWindow :=
  MkFloatingWindow (Some (Panel 700 600 (95 # 100) "Image" true "doc"))
                   (Some 5) (Some orphan).

(** Two captures in consecutive seconds. *)
Definition spaced_run : list capture :=
  [Capture 5 "image" (DBytes png1); Capture 6 "image" (DBytes png2)].

(** * Facts about the monad and the file primitives *)

Ltac munfold :=
  unfold mbind, M_bind, bind, mret, M_ret, ret, raise in *.

Lemma map_blobs_id (w : world) : map_blobs (λ b, b) w = w.
Proof. destruct w as [[[i b]|] s]; reflexivity. Qed.

Lemma map_blobs_compose f g (w : world) :
  map_blobs g (map_blobs f w) = map_blobs (λ b, g (f b)) w.
Proof. destruct w as [[[i b]|] s]; reflexivity. Qed.

Lemma map_blobs_ext f g (w : world) :
  (∀ b, f b = g b) → map_blobs f w = map_blobs g w.
Proof. intros E. destruct w as [[[i b]|] s]; unfold map_blobs; simpl; [by rewrite E | done]. Qed.

Lemma dir_blobs_map_blobs f (w : world) :
  f ∅ = ∅ → dir_blobs (map_blobs f w) = f (dir_blobs w).
Proof. destruct w as [[[i b]|] s]; intros Hf; simpl; [reflexivity | by symmetry]. Qed.

Lemma remove_if_present (name : string) (w : world) :
  (present ← exists_ name; if present : bool then unlink name else mret ()) w
  = (Ok (), map_blobs (delete name) w).
Proof.
  munfold. unfold exists_, unlink, map_blobs, dir_blobs.
  destruct w as [[[i b]|] s]; simpl.
  - destruct (b !! name) eqn:E; simpl.
    + by rewrite E.
    + by rewrite delete_id.
  - reflexivity.
Qed.

Lemma remove_clip_blob (c : clip) (w : world) :
  match c with
  | ImageClip _ filename _ _ =>
      present ← exists_ filename;
      if present : bool then unlink filename else mret ()
  | TextClip _ _ _ _ => mret ()
  end w = (Ok (), map_blobs (remove_blob c) w).
Proof.
  destruct c; simpl.
  - unfold remove_blob; simpl. by rewrite map_blobs_id.
  - apply remove_if_present.
Qed.

Lemma mbind_Ok {A B} (m : M A) (k : A → M B) (w w' : world) (a : A) :
  m w = (Ok a, w') → (m ≫= k) w = k a w'.
Proof. intros E. munfold. by rewrite E. Qed.

Lemma mbind_Raise {A B} (m : M A) (k : A → M B) (w w' : world) (e : exn) :
  m w = (Raise e, w') → (m ≫= k) w = (Raise e, w').
Proof. intros E. munfold. by rewrite E. Qed.

Lemma load_clips_stored (w : world) (clips : list clip) :
  stored w = Ok clips → load_clips w = (Ok clips, w).
Proof.
  unfold stored, load_clips. destruct (dir_index w); simpl; congruence.
Qed.

Lemma load_clips_unchanged (w : world) : snd (load_clips w) = w.
Proof. unfold load_clips. by destruct (dir_index w). Qed.

Lemma load_settings_unchanged (w : world) : snd (load_settings w) = w.
Proof. unfold load_settings. by destruct (SETTINGS_PATH w). Qed.

Lemma load_settings_max (w : world) (m : Z) :
  max_clips_of w = Ok m →
  ∃ s, load_settings w = (Ok s, w) ∧ get (s_max_clips s) 50 = m.
Proof.
  unfold max_clips_of. pose proof (load_settings_unchanged w) as Hw.
  destruct (load_settings w) as [[s|e] w']; simpl in *; [|discriminate].
  intros [= <-]. exists s. by subst.
Qed.

(** * The prune loop *)

Lemma evict_empty (cs : list clip) : evict cs ∅ = ∅.
Proof.
  induction cs as [|c cs IH]; simpl; [done|].
  rewrite IH. unfold remove_blob. destruct (clip_blob c); [apply delete_empty | done].
Qed.

Lemma foldl_rev_evict (cs : list clip) (b : gmap string (list Byte.byte)) :
  foldl (λ b c, remove_blob c b) b (rev cs) = evict cs b.
Proof.
  revert b. induction cs as [|c cs IH]; intros b; simpl; [done|].
  by rewrite foldl_snoc, IH.
Qed.

Lemma prune_from_tail_spec (rclips : list clip) (m : Z) (w : world) :
  0 ≤ m →
  prune_from_tail rclips m w =
  (Ok (drop (length rclips - Z.to_nat m) rclips),
   map_blobs (λ b, foldl (λ b c, remove_blob c b) b
                         (take (length rclips - Z.to_nat m) rclips)) w).
Proof.
  intros Hm. revert w. induction rclips as [|removed rest IH]; intros w.
  - simpl. rewrite bool_decide_eq_false_2 by lia. by rewrite map_blobs_id.
  - cbn [prune_from_tail]. case_bool_decide as Hlen.
    + rewrite (mbind_Ok _ _ _ _ _ (remove_clip_blob removed w)), IH.
      rewrite map_blobs_compose.
      replace (length (removed :: rest) - Z.to_nat m)%nat
        with (S (length rest - Z.to_nat m)) by (simpl in *; lia).
      reflexivity.
    + replace (length (removed :: rest) - Z.to_nat m)%nat with 0%nat by lia.
      simpl. by rewrite map_blobs_id.
Qed.

Lemma auto_prune_spec (clips : list clip) (m : Z) (w : world) :
  0 ≤ m →
  auto_prune clips m w =
  (Ok (take (Z.to_nat m) clips), map_blobs (evict (drop (Z.to_nat m) clips)) w).
Proof.
  intros Hm. unfold auto_prune.
  rewrite (mbind_Ok _ _ _ _ _ (prune_from_tail_spec (rev clips) m w Hm)).
  munfold. f_equal.
  - f_equal. rewrite length_rev, skipn_rev, rev_involutive.
    destruct (decide (length clips ≤ Z.to_nat m)%nat).
    + by rewrite !take_ge by lia.
    + f_equal. lia.
  - apply map_blobs_ext. intros b.
    rewrite length_rev, firstn_rev, foldl_rev_evict.
    replace (length clips - (length clips - Z.to_nat m))%nat
      with (Nat.min (Z.to_nat m) (length clips)) by lia.
    destruct (decide (length clips ≤ Z.to_nat m)%nat).
    + rewrite Nat.min_r by lia. by rewrite !drop_ge by lia.
    + by rewrite Nat.min_l by lia.
Qed.

(** With a negative [max_clips] the loop empties the list and then pops
    from the empty list. *)
Lemma prune_from_tail_negative (rclips : list clip) (m : Z) (w : world) :
  m < 0 →
  prune_from_tail rclips m w =
  (Raise IndexError, map_blobs (λ b, foldl (λ b c, remove_blob c b) b rclips) w).
Proof.
  intros Hm. revert w. induction rclips as [|removed rest IH]; intros w.
  - simpl. rewrite bool_decide_eq_true_2 by lia. by rewrite map_blobs_id.
  - cbn [prune_from_tail]. rewrite bool_decide_eq_true_2 by lia.
    rewrite (mbind_Ok _ _ _ _ _ (remove_clip_blob removed w)), IH.
    by rewrite map_blobs_compose.
Qed.

Lemma persist_spec (cl : list clip) (m : Z) (w : world) :
  0 ≤ m →
  (clips ← auto_prune cl m; save_clips clips;; mret true) w
  = (Ok true, persisted cl m w).
Proof.
  intros Hm. rewrite (mbind_Ok _ _ _ _ _ (auto_prune_spec cl m w Hm)).
  munfold. unfold save_clips, persisted.
  rewrite dir_blobs_map_blobs by apply evict_empty.
  by destruct w as [[[i b]|] s].
Qed.

Lemma persist_negative (cl : list clip) (m : Z) (w : world) :
  m < 0 →
  (clips ← auto_prune cl m; save_clips clips;; mret true) w
  = (Raise IndexError, map_blobs (evict cl) w).
Proof.
  intros Hm. unfold auto_prune.
  erewrite mbind_Raise; [reflexivity|].
  erewrite mbind_Raise; [reflexivity|].
  rewrite prune_from_tail_negative by done. f_equal.
  apply map_blobs_ext. intros b. apply foldl_rev_evict.
Qed.

Lemma persist_not_duplicate (cl : list clip) (m : Z) (w : world) :
  fst ((clips ← auto_prune cl m; save_clips clips;; mret true) w) ≠ Ok false.
Proof.
  destruct (decide (0 ≤ m)).
  - by rewrite persist_spec.
  - by rewrite persist_negative by lia.
Qed.

(** * What one capture does *)

Section Capture.
Context `{Platform}.

Lemma save_clip_text_unfold now s w clips m :
  stored w = Ok clips → max_clips_of w = Ok m →
  save_clip now "text" (DStr s) w =
  if text_dup clips s then (Ok false, w)
  else (clips ← auto_prune (text_record now s :: clips) m; save_clips clips;; mret true) w.
Proof.
  intros Hc Hm. apply load_clips_stored in Hc.
  apply load_settings_max in Hm as (st & Hs & <-).
  unfold save_clip.
  rewrite (mbind_Ok _ _ _ _ _ Hc), (mbind_Ok _ _ _ _ _ Hs).
  rewrite bool_decide_eq_true_2 by done.
  unfold text_dup. destruct clips as [|[i c t p|i f t p] rest]; try reflexivity.
  simpl. destruct (bool_decide (c = s)); reflexivity.
Qed.

Lemma save_clip_image_any now data w clips m :
  stored w = Ok clips → max_clips_of w = Ok m →
  save_clip now "image" data w =
  if image_dup clips (py_len data) w then (Ok false, w)
  else match data with
       | DStr _ => (Raise TypeError, w)
       | DBytes d =>
           match CLIPS_DIR w with
           | None => (Raise FileNotFoundError, w)
           | Some _ =>
               (clips ← auto_prune (image_record now d :: clips) m;
                save_clips clips;; mret true)
                 (written (blob_name now) d w)
           end
       end.
Proof.
  intros Hc Hm. apply load_clips_stored in Hc.
  apply load_settings_max in Hm as (st & Hs & <-).
  unfold save_clip.
  rewrite (mbind_Ok _ _ _ _ _ Hc), (mbind_Ok _ _ _ _ _ Hs).
  rewrite bool_decide_eq_false_2 by done.
  rewrite bool_decide_eq_true_2 by done.
  assert (∀ k : unit → M bool,
    (write_bytes (blob_name now) data ≫= k) w =
    match data with
    | DStr _ => (Raise TypeError, w)
    | DBytes d =>
        match CLIPS_DIR w with
        | None => (Raise FileNotFoundError, w)
        | Some _ => k () (written (blob_name now) d w)
        end
    end) as Hwrite.
  { intros k. munfold. unfold write_bytes, written, map_blobs.
    destruct data; [done|]. by destruct (CLIPS_DIR w). }
  unfold image_dup. destruct clips as [|[i c t p|i f t p] rest].
  - erewrite mbind_Ok by reflexivity.
    etransitivity; [apply Hwrite | by destruct data].
  - erewrite mbind_Ok by reflexivity.
    etransitivity; [apply Hwrite | by destruct data].
  - destruct (dir_blobs w !! f) as [b|] eqn:Eb.
    + erewrite mbind_Ok; cycle 1.
      { erewrite mbind_Ok; cycle 1.
        { unfold exists_. rewrite Eb. reflexivity. }
        simpl. erewrite mbind_Ok; [reflexivity|].
        unfold st_size. by rewrite Eb. }
      simpl. destruct (bool_decide _); [reflexivity |].
      etransitivity; [apply Hwrite | by destruct data].
    + erewrite mbind_Ok; cycle 1.
      { erewrite mbind_Ok; cycle 1.
        { unfold exists_. rewrite Eb. reflexivity. }
        reflexivity. }
      etransitivity; [apply Hwrite | by destruct data].
Qed.

Lemma save_clip_image_unfold now d w clips m :
  stored w = Ok clips → max_clips_of w = Ok m →
  save_clip now "image" (DBytes d) w =
  if image_dup clips (Z.of_nat (length d)) w then (Ok false, w)
  else match CLIPS_DIR w with
       | None => (Raise FileNotFoundError, w)
       | Some _ =>
           (clips ← auto_prune (image_record now d :: clips) m; save_clips clips;; mret true)
             (written (blob_name now) d w)
       end.
Proof. intros Hc Hm. by rewrite (save_clip_image_any _ _ _ _ _ Hc Hm). Qed.

Lemma save_clip_text_bytes now b w clips m :
  stored w = Ok clips → max_clips_of w = Ok m →
  save_clip now "text" (DBytes b) w = (Raise TypeError, w).
Proof.
  intros Hc Hm. apply load_clips_stored in Hc.
  apply load_settings_max in Hm as (st & Hs & <-).
  unfold save_clip.
  rewrite (mbind_Ok _ _ _ _ _ Hc), (mbind_Ok _ _ _ _ _ Hs).
  rewrite bool_decide_eq_true_2 by done.
  by destruct clips as [|[i c t p|i f t p] rest].
Qed.

Lemma save_clip_other_unfold now clip_type data w clips m :
  stored w = Ok clips → max_clips_of w = Ok m →
  clip_type ≠ "text" → clip_type ≠ "image" →
  save_clip now clip_type data w =
  (clips ← auto_prune clips m; save_clips clips;; mret true) w.
Proof.
  intros Hc Hm Ht Hi. apply load_clips_stored in Hc.
  apply load_settings_max in Hm as (st & Hs & <-).
  unfold save_clip.
  rewrite (mbind_Ok _ _ _ _ _ Hc), (mbind_Ok _ _ _ _ _ Hs).
  by rewrite !bool_decide_eq_false_2 by done.
Qed.

End Capture.

(** * Reading the world after a capture *)

Lemma elem_of_drop_whole {A} (x : A) (n : nat) (l : list A) : x ∈ drop n l → x ∈ l.
Proof. intros Hin. rewrite <- (take_drop n l). apply elem_of_app. by right. Qed.

Lemma elem_of_take_whole {A} (x : A) (n : nat) (l : list A) : x ∈ take n l → x ∈ l.
Proof. intros Hin. rewrite <- (take_drop n l). apply elem_of_app. by left. Qed.

Lemma names_of_drop (n : nat) (cs : list clip) (name : string) :
  name ∈ names_of (drop n cs) → name ∈ names_of cs.
Proof.
  unfold names_of. rewrite !list_elem_of_omap. intros (c & Hin & Hc).
  exists c. split; [by eapply elem_of_drop_whole | done].
Qed.

Lemma names_of_take (n : nat) (cs : list clip) (name : string) :
  name ∈ names_of (take n cs) → name ∈ names_of cs.
Proof.
  unfold names_of. rewrite !list_elem_of_omap. intros (c & Hin & Hc).
  exists c. split; [by eapply elem_of_take_whole | done].
Qed.

Lemma stored_persisted (cl : list clip) (m : Z) (w : world) :
  stored (persisted cl m w) = Ok (take (Z.to_nat m) cl).
Proof. reflexivity. Qed.

Lemma max_clips_persisted (cl : list clip) (m : Z) (w : world) :
  max_clips_of (persisted cl m w) = max_clips_of w.
Proof. unfold max_clips_of, load_settings. simpl. by destruct (SETTINGS_PATH w). Qed.

Lemma dir_blobs_persisted (cl : list clip) (m : Z) (w : world) :
  dir_blobs (persisted cl m w) = evict (drop (Z.to_nat m) cl) (dir_blobs w).
Proof. reflexivity. Qed.

Lemma stored_map_blobs f (w : world) : stored (map_blobs f w) = stored w.
Proof. by destruct w as [[[[| |i] b]|] s]. Qed.

Lemma max_clips_map_blobs f (w : world) : max_clips_of (map_blobs f w) = max_clips_of w.
Proof. by destruct w as [[[i b]|] [| |s]]. Qed.

Lemma stored_nonempty_dir (w : world) (c : clip) (cs : list clip) :
  stored w = Ok (c :: cs) → is_Some (CLIPS_DIR w).
Proof.
  unfold stored, load_clips, dir_index.
  destruct (CLIPS_DIR w); [eauto | discriminate].
Qed.

Lemma dir_blobs_written (name : string) (d : list Byte.byte) (w : world) :
  is_Some (CLIPS_DIR w) → dir_blobs (written name d w) = <[name := d]> (dir_blobs w).
Proof. destruct w as [[[i b]|] s]; intros [? ?]; [reflexivity | discriminate]. Qed.

Lemma evict_lookup_gone (cs : list clip) (b : gmap string (list Byte.byte)) (name : string) :
  name ∈ names_of cs → evict cs b !! name = None.
Proof.
  unfold names_of. induction cs as [|c cs IH]; simpl; [by intros ?%elem_of_nil|].
  unfold remove_blob at 1. destruct (clip_blob c) as [f|] eqn:E; simpl.
  - intros [->|Hin]%elem_of_cons; [apply lookup_delete_eq|].
    destruct (decide (f = name)) as [->|Hne]; [apply lookup_delete_eq|].
    rewrite lookup_delete_ne by done. auto.
  - auto.
Qed.

Lemma evict_lookup_kept (cs : list clip) (b : gmap string (list Byte.byte)) (name : string) :
  name ∉ names_of cs → evict cs b !! name = b !! name.
Proof.
  unfold names_of. induction cs as [|c cs IH]; simpl; [done|].
  unfold remove_blob at 1. destruct (clip_blob c) as [f|] eqn:E; simpl.
  - intros Hnot%not_elem_of_cons. destruct Hnot as [Hne Hnot].
    rewrite lookup_delete_ne by done. auto.
  - auto.
Qed.

Lemma evict_lookup_None (cs : list clip) (b : gmap string (list Byte.byte)) (name : string) :
  b !! name = None → evict cs b !! name = None.
Proof.
  intros Hb. destruct (decide (name ∈ names_of cs)).
  - by apply evict_lookup_gone.
  - by rewrite evict_lookup_kept.
Qed.

Lemma save_all_cons `{Platform} (c : capture) (rest : list capture) (w : world) :
  save_all (c :: rest) w =
  match save_clip (cap_now c) (cap_type c) (cap_data c) w with
  | (Ok saved, w1) =>
      match save_all rest w1 with
      | (Ok others, w2) => (Ok (saved :: others), w2)
      | (Raise e, w2) => (Raise e, w2)
      end
  | (Raise e, w1) => (Raise e, w1)
  end.
Proof. reflexivity. Qed.

Ltac run_capture E :=
  rewrite save_all_cons; cbn [cap_now cap_type cap_data]; rewrite E; cbv beta iota.

(** * Text captures (C1) *)

Section TextDedup.
Context `{Platform}.

Lemma text_dup_head (clips : list clip) (s : string) :
  text_dup clips s = true ↔
  ∃ head, clips !! 0%nat = Some head ∧ clip_type_of head = "text"
          ∧ clip_content head = Some s.
Proof.
  unfold text_dup. split.
  - destruct clips as [|[i c t p|i f t p] rest]; try discriminate.
    intros ->%bool_decide_eq_true. eexists. by repeat split.
  - intros (head & Hh & Ht & Hc).
    destruct clips as [|c rest]; [discriminate|]. simpl in Hh. injection Hh as ->.
    destruct head; [|discriminate]. simpl in Hc. injection Hc as ->.
    by apply bool_decide_eq_true.
Qed.

Lemma save_clip_text_duplicate now s w clips m :
  stored w = Ok clips → max_clips_of w = Ok m →
  fst (save_clip now "text" (DStr s) w) = Ok false ↔ text_dup clips s = true.
Proof.
  intros Hc Hm. rewrite (save_clip_text_unfold _ _ _ _ _ Hc Hm).
  destruct (text_dup clips s); simpl.
  - done.
  - split; [|discriminate]. intros Hf. by apply persist_not_duplicate in Hf.
Qed.

Lemma save_clip_text_saved now s w clips m :
  stored w = Ok clips → max_clips_of w = Ok m → 0 ≤ m →
  text_dup clips s = false →
  save_clip now "text" (DStr s) w
  = (Ok true, persisted (text_record now s :: clips) m w).
Proof.
  intros Hc Hm Hpos Hd. rewrite (save_clip_text_unfold _ _ _ _ _ Hc Hm), Hd.
  by apply persist_spec.
Qed.

(** C1.  Whenever the index and the settings load, a text capture is
    answered with [False] (duplicate) exactly when the store has a head
    record, that record is a text record, and its content is the captured
    string; a duplicate leaves every file as it was.  From an empty store
    and room for two records, capturing the same text twice stores one
    record, and capturing a different text next stores two, newest
    first. *)
Theorem text_capture_dedup (w : world) (clips : list clip) (m : Z) :
  stored w = Ok clips → max_clips_of w = Ok m →
  (∀ now s,
     fst (save_clip now "text" (DStr s) w) = Ok false ↔
     ∃ head, clips !! 0%nat = Some head ∧ clip_type_of head = "text"
             ∧ clip_content head = Some s)
  ∧ (∀ now s,
       fst (save_clip now "text" (DStr s) w) = Ok false →
       save_clip now "text" (DStr s) w = (Ok false, w))
  ∧ (clips = [] → 2 ≤ m → ∀ t1 t2 t3 a b, a ≠ b →
     ∃ w2 w3,
       save_all [Capture t1 "text" (DStr a); Capture t2 "text" (DStr a)] w
         = (Ok [true; false], w2)
       ∧ stored w2 = Ok [text_record t1 a]
       ∧ save_all [Capture t1 "text" (DStr a); Capture t2 "text" (DStr a);
                   Capture t3 "text" (DStr b)] w
         = (Ok [true; false; true], w3)
       ∧ stored w3 = Ok [text_record t3 b; text_record t1 a]).
Proof.
  intros Hc Hm. split; [|split].
  - intros now s. rewrite (save_clip_text_duplicate _ _ _ _ _ Hc Hm).
    apply text_dup_head.
  - intros now s Hdup.
    apply (save_clip_text_duplicate _ _ _ _ _ Hc Hm) in Hdup.
    by rewrite (save_clip_text_unfold _ _ _ _ _ Hc Hm), Hdup.
  - intros -> Hm2 t1 t2 t3 a b Hab.
    set (w1 := persisted [text_record t1 a] m w).
    set (w3 := persisted [text_record t3 b; text_record t1 a] m w1).
    assert (save_clip t1 "text" (DStr a) w = (Ok true, w1)) as E1.
    { by apply save_clip_text_saved; [| |lia|]. }
    assert (stored w1 = Ok [text_record t1 a]) as Hs1.
    { unfold w1. rewrite stored_persisted. by rewrite take_ge by (simpl; lia). }
    assert (max_clips_of w1 = Ok m) as Hm1.
    { unfold w1. by rewrite max_clips_persisted. }
    assert (save_clip t2 "text" (DStr a) w1 = (Ok false, w1)) as E2.
    { rewrite (save_clip_text_unfold _ _ _ _ _ Hs1 Hm1). simpl.
      by rewrite bool_decide_eq_true_2. }
    assert (save_clip t3 "text" (DStr b) w1 = (Ok true, w3)) as E3.
    { apply save_clip_text_saved; [done|done|lia|]. simpl.
      by rewrite bool_decide_eq_false_2. }
    exists w1, w3. repeat split.
    + run_capture E1. run_capture E2. reflexivity.
    + done.
    + run_capture E1. run_capture E2. run_capture E3. reflexivity.
    + unfold w3. rewrite stored_persisted. by rewrite take_ge by (simpl; lia).
Qed.

End TextDedup.

(** * Image captures (C2, C9) *)

Section ImageDedup.
Context `{Platform}.

Lemma image_dup_head (clips : list clip) (d : list Byte.byte) (w : world) :
  image_dup clips (Z.of_nat (length d)) w = true ↔
  ∃ head name blob,
    clips !! 0%nat = Some head ∧ clip_type_of head = "image"
    ∧ clip_blob head = Some name ∧ dir_blobs w !! name = Some blob
    ∧ length blob = length d.
Proof.
  unfold image_dup. split.
  - destruct clips as [|[i c t p|i f t p] rest]; try discriminate.
    destruct (dir_blobs w !! f) as [blob|] eqn:Eb; [|discriminate].
    intros Hlen%bool_decide_eq_true.
    exists (ImageClip i f t p), f, blob. repeat split; [done|lia].
  - intros (head & name & blob & Hh & _ & Hn & Hb & Hlen).
    destruct clips as [|c rest]; [discriminate|]. simpl in Hh. injection Hh as ->.
    destruct head; [discriminate|]. simpl in Hn. injection Hn as ->.
    rewrite Hb. apply bool_decide_eq_true. lia.
Qed.

Lemma save_clip_image_duplicate now d w clips m :
  stored w = Ok clips → max_clips_of w = Ok m →
  fst (save_clip now "image" (DBytes d) w) = Ok false
  ↔ image_dup clips (Z.of_nat (length d)) w = true.
Proof.
  intros Hc Hm. rewrite (save_clip_image_unfold _ _ _ _ _ Hc Hm).
  destruct (image_dup clips _ w); simpl; [done|].
  split; [|discriminate]. intros Hf.
  destruct (CLIPS_DIR w); [|discriminate].
  by apply persist_not_duplicate in Hf.
Qed.

Lemma save_clip_image_saved now d w clips m :
  stored w = Ok clips → max_clips_of w = Ok m → 0 ≤ m →
  is_Some (CLIPS_DIR w) →
  image_dup clips (Z.of_nat (length d)) w = false →
  save_clip now "image" (DBytes d) w
  = (Ok true, persisted (image_record now d :: clips) m (written (blob_name now) d w)).
Proof.
  intros Hc Hm Hpos [dir Hdir] Hd.
  rewrite (save_clip_image_unfold _ _ _ _ _ Hc Hm), Hd, Hdir.
  by apply persist_spec.
Qed.

(** C2.  Whenever the index and the settings load, an image capture is
    answered with [False] (duplicate) exactly when the store has a head
    record, that record is an image record, and its blob is on disk with
    as many bytes as the input.  Only the length is compared: against a
    head blob of the same length any input is a duplicate, whatever its
    bytes, and an input of another length never is; so of two images
    captured in a row into an empty store the second is stored exactly
    when its length differs from the first's. *)
Theorem image_capture_dedup (w : world) (clips : list clip) (m : Z) :
  stored w = Ok clips → max_clips_of w = Ok m →
  (∀ now d,
     fst (save_clip now "image" (DBytes d) w) = Ok false ↔
     ∃ head name blob,
       clips !! 0%nat = Some head ∧ clip_type_of head = "image"
       ∧ clip_blob head = Some name ∧ dir_blobs w !! name = Some blob
       ∧ length blob = length d)
  ∧ (∀ now d head name blob,
       clips !! 0%nat = Some head → clip_blob head = Some name →
       dir_blobs w !! name = Some blob →
       (length d = length blob → fst (save_clip now "image" (DBytes d) w) = Ok false)
       ∧ (length d ≠ length blob → fst (save_clip now "image" (DBytes d) w) ≠ Ok false))
  ∧ (clips = [] → is_Some (CLIPS_DIR w) → 1 ≤ m → ∀ t1 t2 d1 d2,
       fst (save_all [Capture t1 "image" (DBytes d1); Capture t2 "image" (DBytes d2)] w)
       = Ok [true; negb (bool_decide (length d1 = length d2))]).
Proof.
  intros Hc Hm. split; [|split].
  - intros now d. rewrite (save_clip_image_duplicate _ _ _ _ _ Hc Hm).
    apply image_dup_head.
  - intros now d head name blob Hh Hn Hb.
    rewrite (save_clip_image_duplicate _ _ _ _ _ Hc Hm), image_dup_head.
    split.
    + intros Hlen. exists head, name, blob. repeat split; try done.
      by destruct head.
    + intros Hlen (head' & name' & blob' & Hh' & _ & Hn' & Hb' & Hlen').
      congruence.
  - intros -> Hdir Hm1 t1 t2 d1 d2.
    set (w1 := persisted [image_record t1 d1] m (written (blob_name t1) d1 w)).
    assert (save_clip t1 "image" (DBytes d1) w = (Ok true, w1)) as E1.
    { by apply save_clip_image_saved; [| |lia| |]. }
    assert (stored w1 = Ok [image_record t1 d1]) as Hs1.
    { unfold w1. rewrite stored_persisted. by rewrite take_ge by (simpl; lia). }
    assert (max_clips_of w1 = Ok m) as Hm1'.
    { unfold w1, written. by rewrite max_clips_persisted, max_clips_map_blobs. }
    assert (dir_blobs w1 !! blob_name t1 = Some d1) as Hb1.
    { unfold w1. rewrite dir_blobs_persisted, drop_ge by (simpl; lia).
      simpl. rewrite dir_blobs_written by done. apply lookup_insert_eq. }
    run_capture E1. rewrite save_all_cons. cbn [cap_now cap_type cap_data].
    rewrite (save_clip_image_unfold _ _ _ _ _ Hs1 Hm1').
    unfold image_dup, image_record at 1. rewrite Hb1.
    case_bool_decide as Hlen.
    + simpl. rewrite bool_decide_eq_true_2 by lia. reflexivity.
    + unfold w1 at 1. cbn [persisted CLIPS_DIR].
      rewrite persist_spec by lia. simpl.
      rewrite bool_decide_eq_false_2 by lia. reflexivity.
Qed.

(** C9.  When the head record is an image record whose blob is not on
    disk, no image capture is answered with [False], whatever the length
    of the input; the capture writes its blob, puts its record at the
    head of the loaded sequence and persists the sequence pruned to
    [max_clips], so that with room for one record the new record is the
    stored head. *)
Theorem missing_head_blob_never_duplicate (w : world) (m : Z)
    (id : Z) (prev_file : string) (timestamp : Z) (preview : string)
    (rest : list clip) (now : Q) (d : list Byte.byte) :
  stored w = Ok (ImageClip id prev_file timestamp preview :: rest) →
  max_clips_of w = Ok m →
  ¬ on_disk prev_file w →
  fst (save_clip now "image" (DBytes d) w) ≠ Ok false
  ∧ (0 ≤ m →
     ∃ w', save_clip now "image" (DBytes d) w = (Ok true, w')
           ∧ on_disk (blob_name now) (written (blob_name now) d w)
           ∧ stored w' = Ok (take (Z.to_nat m)
                               (image_record now d
                                :: ImageClip id prev_file timestamp preview :: rest)))
  ∧ (1 ≤ m →
     ∃ w' others, save_clip now "image" (DBytes d) w = (Ok true, w')
                  ∧ stored w' = Ok (image_record now d :: others)).
Proof.
  intros Hc Hm Hmiss.
  assert (image_dup (ImageClip id prev_file timestamp preview :: rest)
                    (Z.of_nat (length d)) w = false) as Hd.
  { unfold image_dup. destruct (dir_blobs w !! prev_file) eqn:Eb; [|done].
    exfalso. apply Hmiss. unfold on_disk. eauto. }
  pose proof (stored_nonempty_dir _ _ _ Hc) as Hdir.
  split; [|split].
  - rewrite (save_clip_image_duplicate _ _ _ _ _ Hc Hm). congruence.
  - intros Hpos. eexists. split; [by apply save_clip_image_saved|]. split.
    + unfold on_disk. rewrite dir_blobs_written by done.
      rewrite lookup_insert_eq. eauto.
    + apply stored_persisted.
  - intros Hpos.
    exists (persisted (image_record now d :: ImageClip id prev_file timestamp preview :: rest)
                      m (written (blob_name now) d w)).
    exists (take (Z.to_nat (m - 1)) (ImageClip id prev_file timestamp preview :: rest)).
    split; [apply save_clip_image_saved; try done; lia|].
    rewrite stored_persisted.
    replace (Z.to_nat m) with (S (Z.to_nat (m - 1))) by lia. reflexivity.
Qed.

End ImageDedup.

(** * Captures of an unknown kind (C10) *)

Section UnknownKind.
Context `{Platform}.

(** C10.  For a capture whose kind is neither ["text"] nor ["image"],
    whatever its data, [save_clip] builds no record: it prunes the loaded
    sequence to [max_clips] (deleting the blobs of the records it drops),
    persists the result and returns [True], the value of a completed
    capture.  (The index and the settings load and [max_clips] is not
    negative.) *)
Theorem unknown_kind_reported_saved (w : world) (clips : list clip) (m : Z)
    (now : Q) (clip_type : string) (data : pydata) :
  stored w = Ok clips → max_clips_of w = Ok m → 0 ≤ m →
  clip_type ≠ "text" → clip_type ≠ "image" →
  ∃ w', save_clip now clip_type data w = (Ok true, w')
        ∧ stored w' = Ok (take (Z.to_nat m) clips)
        ∧ dir_blobs w' = evict (drop (Z.to_nat m) clips) (dir_blobs w)
        ∧ (∀ kept, stored w' = Ok kept → Z.of_nat (length kept) ≤ m)
        ∧ (Z.of_nat (length clips) ≤ m → stored w' = Ok clips).
Proof.
  intros Hc Hm Hpos Ht Hi. exists (persisted clips m w).
  rewrite (save_clip_other_unfold _ _ _ _ _ _ Hc Hm Ht Hi), persist_spec by done.
  rewrite stored_persisted, dir_blobs_persisted. repeat split.
  - intros kept [= <-]. rewrite length_take. lia.
  - intros Hlen. by rewrite take_ge by lia.
Qed.

End UnknownKind.

(** * Clearing the store (C4) *)

Lemma remove_blobs_spec (clips : list clip) (w : world) :
  remove_blobs clips w = (Ok (), map_blobs (evict (rev clips)) w).
Proof.
  revert w. induction clips as [|c rest IH]; intros w.
  - simpl. by rewrite map_blobs_id.
  - cbn [remove_blobs].
    rewrite (mbind_Ok _ _ _ _ _ (remove_clip_blob c w)), IH, map_blobs_compose.
    f_equal. apply map_blobs_ext. intros b. simpl.
    unfold evict. by rewrite foldr_app.
Qed.

Lemma names_of_rev (cs : list clip) (name : string) :
  name ∈ names_of (rev cs) ↔ name ∈ names_of cs.
Proof.
  unfold names_of. rewrite !list_elem_of_omap.
  split; intros (c & Hin & Hc); exists c; split; try done.
  - by apply list_elem_of_In, in_rev, list_elem_of_In.
  - by apply list_elem_of_In, in_rev; rewrite rev_involutive; apply list_elem_of_In.
Qed.

(** C4.  From every store state, [clear_all_clips] completes; afterwards
    the index is the empty sequence and no blob named by a record of the
    prior sequence is on disk.  A blob that was already missing is
    skipped: completion does not depend on which blobs exist. *)
Theorem clear_all_clips_clears (w : world) (clips : list clip) :
  stored w = Ok clips →
  ∃ w', clear_all_clips w = (Ok (), w')
        ∧ stored w' = Ok []
        ∧ (∀ c name, c ∈ clips → clip_blob c = Some name → ¬ on_disk name w').
Proof.
  intros Hc.
  exists (World (Some (ClipsDir (Parsed []) (evict (rev clips) (dir_blobs w))))
                (SETTINGS_PATH w)).
  split; [|split].
  - unfold clear_all_clips.
    rewrite (mbind_Ok _ _ _ _ _ (load_clips_stored _ _ Hc)).
    rewrite (mbind_Ok _ _ _ _ _ (remove_blobs_spec clips w)).
    unfold save_clips. rewrite dir_blobs_map_blobs by apply evict_empty.
    by destruct w as [[[i b]|] s].
  - reflexivity.
  - intros c name Hin Hname [blob Hblob]. unfold dir_blobs in Hblob. simpl in Hblob.
    rewrite evict_lookup_gone in Hblob; [discriminate|].
    apply names_of_rev. unfold names_of. apply list_elem_of_omap. eauto.
Qed.

(** * Loading the settings (C5) *)

Section SettingsLoad.
Context `{Platform}.

(** C5, as the code has it.  Without a settings file, [load_settings]
    returns the defaults: [max_clips] 50 and a 700 by 600 window of
    opacity 0.95; a key missing from a settings object reads as its
    default.  A settings file that does not parse makes [load_settings]
    raise, and with it every capture and every first display of a clip:
    none completes with defaults. *)
Theorem load_settings_defaults_only_when_absent (w : world) :
  (SETTINGS_PATH w = Absent →
     load_settings w = (Ok default_settings, w)
     ∧ max_clips_of w = Ok 50
     ∧ s_window default_settings
       = Some (WindowCfg (Some 700) (Some 600) (Some (95 # 100))))
  ∧ (∀ window, SETTINGS_PATH w = Parsed (Settings None window) →
       max_clips_of w = Ok 50)
  ∧ (SETTINGS_PATH w = Malformed →
       load_settings w = (Raise JSONDecodeError, w)
       ∧ (∀ now clip_type data,
            save_clip now clip_type data w = (Raise JSONDecodeError, w))
       ∧ (∀ clip, show_clip FloatingWindow_init clip w = (Raise JSONDecodeError, w))).
Proof.
  split; [|split].
  - intros Hs. unfold max_clips_of, load_settings. by rewrite Hs.
  - intros window Hs. unfold max_clips_of, load_settings. by rewrite Hs.
  - intros Hs.
    assert (load_settings w = (Raise JSONDecodeError, w)) as Hl.
    { unfold load_settings. by rewrite Hs. }
    split; [done|split].
    + intros now clip_type data. unfold save_clip.
      destruct (load_clips w) as [[clips|e] w1] eqn:Hc.
      * pose proof (load_clips_unchanged w) as Hw. rewrite Hc in Hw. simpl in Hw.
        subst w1. rewrite (mbind_Ok _ _ _ _ _ Hc).
        by rewrite (mbind_Raise _ _ _ _ _ Hl).
      * rewrite (mbind_Raise _ _ _ _ _ Hc). unfold load_clips in Hc.
        destruct (dir_index w); congruence.
    + intros clip. unfold show_clip.
      erewrite mbind_Raise; [reflexivity|].
      unfold _ensure_panel. simpl. by rewrite (mbind_Raise _ _ _ _ _ Hl).
Qed.

End SettingsLoad.

(** * Relative time (C6) *)

Lemma Qltb_lt (x y : Q) : Qltb x y = true ↔ (x < y)%Q.
Proof.
  unfold Qltb. rewrite negb_true_iff, <- not_true_iff_false, Qle_bool_iff.
  split; [apply Qnot_le_lt | apply Qlt_not_le].
Qed.

Lemma Qltb_ge (x y : Q) : Qltb x y = false ↔ (y <= x)%Q.
Proof.
  unfold Qltb. rewrite negb_false_iff. apply Qle_bool_iff.
Qed.

#[local] Instance Qltb_proper : Proper (Qeq ==> Qeq ==> eq) Qltb.
Proof. intros x x' Hx y y' Hy. unfold Qltb. by rewrite Hx, Hy. Qed.

#[local] Instance py_int_proper : Proper (Qeq ==> eq) py_int.
Proof.
  intros [a b] [c d] Heq. unfold py_int, Qeq in *. simpl in *.
  rewrite <- (Z.quot_mul_cancel_r a (Z.pos b) (Z.pos d)) by lia.
  rewrite <- (Z.quot_mul_cancel_r c (Z.pos d) (Z.pos b)) by lia.
  rewrite Heq. f_equal. lia.
Qed.

Lemma relative_time_age (now : Q) (timestamp : Z) :
  relative_time now timestamp = age_label (now - inject_Z timestamp).
Proof. reflexivity. Qed.

#[local] Instance age_label_proper : Proper (Qeq ==> eq) age_label.
Proof.
  intros x y Hxy. unfold age_label.
  rewrite !(Qltb_proper x y Hxy _ _ (Qeq_refl _)).
  assert (∀ c : Q, py_int (x / c) = py_int (y / c)) as Hq.
  { intros c. apply py_int_proper. by rewrite Hxy. }
  by rewrite !Hq.
Qed.

Lemma relative_time_after (timestamp k : Z) :
  relative_time (inject_Z (timestamp + k)) timestamp = age_label (inject_Z k).
Proof.
  rewrite relative_time_age. apply age_label_proper.
  unfold Qeq, Qminus, Qplus, Qopp, inject_Z. simpl. lia.
Qed.

Lemma py_int_div_lower (diff : Q) (c : positive) (lo : Z) :
  (inject_Z (Z.pos c * lo) <= diff)%Q → lo ≤ py_int (diff / inject_Z (Z.pos c)).
Proof.
  destruct diff as [a b]. unfold Qle, py_int, Qdiv, Qmult, Qinv, inject_Z.
  cbn [Qnum Qden]. intros Hle.
  rewrite Z.mul_1_r. apply Z.quot_le_lower_bound; lia.
Qed.

Lemma py_int_div_upper (diff : Q) (c : positive) (hi : Z) :
  (0 <= diff)%Q → (diff < inject_Z (Z.pos c * hi))%Q →
  py_int (diff / inject_Z (Z.pos c)) < hi.
Proof.
  destruct diff as [a b]. unfold Qle, Qlt, py_int, Qdiv, Qmult, Qinv, inject_Z.
  cbn [Qnum Qden]. intros Hpos Hlt.
  rewrite Z.mul_1_r. apply Z.quot_lt_upper_bound; lia.
Qed.

(** C6.  [relative_time] depends on the clock reading and the timestamp
    only, through their difference [diff], and its buckets are:
    [diff < 60] is "just now"; [60 <= diff < 3600] is "N min ago" with
    [N] the whole minutes (1 to 59); [3600 <= diff < 86400] is
    "N hr ago" with [N] the whole hours (1 to 23), written "hrs" exactly
    when [N > 1]; [86400 <= diff < 172800] is "yesterday"; from 172800 on
    it is "N days ago" with [N] the whole days (at least 2).  Each lower
    bound belongs to its bucket: 59 seconds is "just now" and 60 is not,
    86399 seconds is still in the hours bucket. *)
Theorem relative_time_buckets (now : Q) (timestamp : Z) :
  let diff := (now - inject_Z timestamp)%Q in
  ((diff < 60)%Q → relative_time now timestamp = "just now")
  ∧ ((60 <= diff)%Q → (diff < 3600)%Q →
       let N := py_int (diff / 60) in
       1 ≤ N ≤ 59 ∧ relative_time now timestamp = pretty N +:+ " min ago")
  ∧ ((3600 <= diff)%Q → (diff < 86400)%Q →
       let N := py_int (diff / 3600) in
       1 ≤ N ≤ 23
       ∧ relative_time now timestamp
         = pretty N +:+ (if bool_decide (N > 1) then " hrs ago" else " hr ago"))
  ∧ ((86400 <= diff)%Q → (diff < 172800)%Q →
       relative_time now timestamp = "yesterday")
  ∧ ((172800 <= diff)%Q →
       let N := py_int (diff / 86400) in
       2 ≤ N ∧ relative_time now timestamp = pretty N +:+ " days ago")
  ∧ (∀ now' timestamp',
       (now' - inject_Z timestamp' == diff)%Q →
       relative_time now' timestamp' = relative_time now timestamp)
  ∧ relative_time (inject_Z (timestamp + 59)) timestamp = "just now"
  ∧ relative_time (inject_Z (timestamp + 60)) timestamp = "1 min ago"
  ∧ relative_time (inject_Z (timestamp + 3599)) timestamp = "59 min ago"
  ∧ relative_time (inject_Z (timestamp + 3600)) timestamp = "1 hr ago"
  ∧ relative_time (inject_Z (timestamp + 7200)) timestamp = "2 hrs ago"
  ∧ relative_time (inject_Z (timestamp + 86399)) timestamp = "23 hrs ago"
  ∧ relative_time (inject_Z (timestamp + 86400)) timestamp = "yesterday"
  ∧ relative_time (inject_Z (timestamp + 172799)) timestamp = "yesterday"
  ∧ relative_time (inject_Z (timestamp + 172800)) timestamp = "2 days ago".
Proof.
  intros diff. rewrite relative_time_age. fold diff.
  repeat apply conj.
  - intros H1%Qltb_lt. unfold age_label. by rewrite H1.
  - intros H1 H2 N.
    split.
    { assert (1 ≤ N) by exact (py_int_div_lower diff 60 1 H1).
      assert (N < 60)
        by exact (py_int_div_upper diff 60 60 (Qle_trans 0 60 diff ltac:(done) H1) H2).
      lia. }
    apply Qltb_ge in H1. apply Qltb_lt in H2. unfold age_label. by rewrite H1, H2.
  - intros H1 H2 N.
    split.
    { assert (1 ≤ N) by exact (py_int_div_lower diff 3600 1 H1).
      assert (N < 24)
        by exact (py_int_div_upper diff 3600 24 (Qle_trans 0 3600 diff ltac:(done) H1) H2).
      lia. }
    assert (Qltb diff 60 = false) as H0.
    { apply Qltb_ge. eapply Qle_trans; [|exact H1]. done. }
    assert (Qltb diff 3600 = false) as H1' by by apply Qltb_ge.
    apply Qltb_lt in H2. unfold age_label. rewrite H0, H1', H2. fold N.
    by destruct (bool_decide (N > 1)).
  - intros H1 H2.
    assert (Qltb diff 60 = false) as H0.
    { apply Qltb_ge. eapply Qle_trans; [|exact H1]. done. }
    assert (Qltb diff 3600 = false) as H0'.
    { apply Qltb_ge. eapply Qle_trans; [|exact H1]. done. }
    assert (Qltb diff 86400 = false) as H1' by by apply Qltb_ge.
    apply Qltb_lt in H2. unfold age_label. by rewrite H0, H0', H1', H2.
  - intros H1 N.
    split.
    { exact (py_int_div_lower diff 86400 2 H1). }
    assert (Qltb diff 60 = false) as H0.
    { apply Qltb_ge. eapply Qle_trans; [|exact H1]. done. }
    assert (Qltb diff 3600 = false) as H0'.
    { apply Qltb_ge. eapply Qle_trans; [|exact H1]. done. }
    assert (Qltb diff 86400 = false) as H0''.
    { apply Qltb_ge. eapply Qle_trans; [|exact H1]. done. }
    assert (Qltb diff 172800 = false) as H1' by by apply Qltb_ge.
    unfold age_label. by rewrite H0, H0', H0'', H1'.
  - intros now' timestamp' Heq. rewrite relative_time_age. by apply age_label_proper.
  - by rewrite relative_time_after.
  - by rewrite relative_time_after.
  - by rewrite relative_time_after.
  - by rewrite relative_time_after.
  - by rewrite relative_time_after.
  - by rewrite relative_time_after.
  - by rewrite relative_time_after.
  - by rewrite relative_time_after.
  - by rewrite relative_time_after.
Qed.

(** * Rendering and copy-back (C7, C8) *)

Section Display.
Context `{Platform}.

Lemma render_image_preview_missing (filename : string) (timestamp : Z) (w : world) :
  ¬ on_disk filename w →
  render_image_preview filename timestamp w = (Ok (not_found_document filename), w).
Proof.
  intros Hmiss. unfold render_image_preview.
  erewrite mbind_Ok by reflexivity.
  rewrite bool_decide_eq_false_2 by done. reflexivity.
Qed.

Lemma render_image_preview_total (filename : string) (timestamp : Z) (w : world) :
  ∃ html, render_image_preview filename timestamp w = (Ok html, w).
Proof.
  destruct (dir_blobs w !! filename) as [blob|] eqn:Eb.
  - eexists. unfold render_image_preview.
    erewrite mbind_Ok by reflexivity.
    rewrite bool_decide_eq_true_2 by (rewrite Eb; eauto). simpl.
    erewrite mbind_Ok; [reflexivity|]. unfold read_bytes. by rewrite Eb.
  - eexists. apply render_image_preview_missing.
    unfold on_disk. rewrite Eb. by intros [? ?].
Qed.

Lemma _ensure_panel_ok (self : FloatingWindow) (w : world) (m : Z) :
  max_clips_of w = Ok m →
  ∃ self', _ensure_panel self w = (Ok self', w)
           ∧ _current_clip self' = _current_clip self.
Proof.
  intros (st & Hs & _)%load_settings_max. unfold _ensure_panel.
  destruct (_panel self).
  - by exists self.
  - rewrite (mbind_Ok _ _ _ _ _ Hs). eexists. split; reflexivity.
Qed.

Lemma show_clip_ok (self : FloatingWindow) (c : clip) (w : world) (m : Z) :
  max_clips_of w = Ok m →
  ∃ self', show_clip self c w = (Ok self', w) ∧ _current_clip self' = Some c.
Proof.
  intros Hm. destruct (_ensure_panel_ok self w m Hm) as (self1 & E1 & _).
  unfold show_clip. rewrite (mbind_Ok _ _ _ _ _ E1).
  destruct c as [i s t p|i f t p].
  - eexists. split; reflexivity.
  - destruct (render_image_preview_total f t w) as (html & Eh).
    erewrite mbind_Ok; cycle 1.
    { rewrite (mbind_Ok _ _ _ _ _ Eh). reflexivity. }
    eexists. split; reflexivity.
Qed.

End Display.

Lemma copy_back_text (fw : FloatingWindow) (pb : pasteboard) (w : world)
    (id : Z) (content : string) (timestamp : Z) (preview : string) :
  _current_clip fw = Some (TextClip id content timestamp preview) →
  userContentController_didReceiveScriptMessage_ (Some fw) pb w
  = (Ok [(NSPasteboardTypeString, DStr content)], w).
Proof. intros Hc. unfold userContentController_didReceiveScriptMessage_. by rewrite Hc. Qed.

Lemma copy_back_image (fw : FloatingWindow) (pb : pasteboard) (w : world)
    (id : Z) (filename : string) (timestamp : Z) (preview : string)
    (blob : list Byte.byte) :
  _current_clip fw = Some (ImageClip id filename timestamp preview) →
  dir_blobs w !! filename = Some blob →
  userContentController_didReceiveScriptMessage_ (Some fw) pb w
  = (Ok [(NSPasteboardTypePNG, DBytes blob)], w).
Proof.
  intros Hc Hb. unfold userContentController_didReceiveScriptMessage_. rewrite Hc.
  erewrite mbind_Ok by reflexivity.
  rewrite bool_decide_eq_true_2 by (rewrite Hb; eauto).
  erewrite mbind_Ok; [reflexivity|]. unfold read_bytes. by rewrite Hb.
Qed.

Lemma copy_back_image_missing (fw : FloatingWindow) (pb : pasteboard) (w : world)
    (id : Z) (filename : string) (timestamp : Z) (preview : string) :
  _current_clip fw = Some (ImageClip id filename timestamp preview) →
  ¬ on_disk filename w →
  userContentController_didReceiveScriptMessage_ (Some fw) pb w = (Ok [], w).
Proof.
  intros Hc Hb. unfold userContentController_didReceiveScriptMessage_. rewrite Hc.
  erewrite mbind_Ok by reflexivity.
  by rewrite bool_decide_eq_false_2.
Qed.

Section CopyBack.
Context `{Platform}.

(** C8, as the code has it.  For an image record whose blob is not on
    disk, [render_image_preview] returns the "Image not found" document
    naming the record's file and does not raise; copy-back for such a
    record does not raise and writes nothing to the pasteboard, which it
    has cleared first: the pasteboard ends up empty whatever it held. *)
Theorem missing_blob_degrades (w : world)
    (id : Z) (filename : string) (timestamp : Z) (preview : string) :
  ¬ on_disk filename w →
  render_image_preview filename timestamp w
  = (Ok ("<html><body><p>Image not found: " +:+ filename +:+ "</p></body></html>"), w)
  ∧ (∀ fw pb,
       _current_clip fw = Some (ImageClip id filename timestamp preview) →
       userContentController_didReceiveScriptMessage_ (Some fw) pb w = (Ok [], w)).
Proof.
  intros Hmiss. split.
  - by apply render_image_preview_missing.
  - intros fw pb Hc. by eapply copy_back_image_missing.
Qed.

(** C7, as the code has it.  With a text record displayed, copy-back
    leaves exactly the record's content on the pasteboard, as a string.
    With an image record displayed whose blob is on disk, copy-back
    leaves exactly the bytes the blob holds at that moment, as PNG data.
    A text capture that is saved and retained ([max_clips] at least 1),
    then shown and copied back, puts the captured string on the
    pasteboard; so does an image capture with its bytes, provided no
    record already in the store names the blob the capture writes. *)
Theorem copy_back_round_trip (w : world) (clips : list clip) (m : Z)
    (self : FloatingWindow) (pb : pasteboard) :
  stored w = Ok clips → max_clips_of w = Ok m →
  (∀ fw id content timestamp preview,
     _current_clip fw = Some (TextClip id content timestamp preview) →
     userContentController_didReceiveScriptMessage_ (Some fw) pb w
     = (Ok [(NSPasteboardTypeString, DStr content)], w))
  ∧ (∀ fw id filename timestamp preview blob,
       _current_clip fw = Some (ImageClip id filename timestamp preview) →
       dir_blobs w !! filename = Some blob →
       userContentController_didReceiveScriptMessage_ (Some fw) pb w
       = (Ok [(NSPasteboardTypePNG, DBytes blob)], w))
  ∧ (∀ now s w1,
       1 ≤ m → save_clip now "text" (DStr s) w = (Ok true, w1) →
       ∃ c rest shown,
         stored w1 = Ok (c :: rest)
         ∧ show_clip self c w1 = (Ok shown, w1)
         ∧ userContentController_didReceiveScriptMessage_ (Some shown) pb w1
           = (Ok [(NSPasteboardTypeString, DStr s)], w1))
  ∧ (∀ now d w1,
       1 ≤ m → blob_name now ∉ names_of clips →
       save_clip now "image" (DBytes d) w = (Ok true, w1) →
       ∃ c rest shown,
         stored w1 = Ok (c :: rest)
         ∧ show_clip self c w1 = (Ok shown, w1)
         ∧ userContentController_didReceiveScriptMessage_ (Some shown) pb w1
           = (Ok [(NSPasteboardTypePNG, DBytes d)], w1)).
Proof.
  intros Hc Hm. repeat apply conj.
  - intros fw id content timestamp preview Hcur. by eapply copy_back_text.
  - intros fw id filename timestamp preview blob Hcur Hb. by eapply copy_back_image.
  - intros now s w1 Hm1 Hsave.
    rewrite (save_clip_text_unfold _ _ _ _ _ Hc Hm) in Hsave.
    destruct (text_dup clips s); [discriminate|].
    rewrite persist_spec in Hsave by lia. injection Hsave as <-.
    assert (max_clips_of (persisted (text_record now s :: clips) m w) = Ok m) as Hm'.
    { by rewrite max_clips_persisted. }
    destruct (show_clip_ok self (text_record now s) _ m Hm') as (shown & Eshow & Hcur).
    exists (text_record now s), (take (Z.to_nat (m - 1)) clips), shown.
    split; [|split].
    + rewrite stored_persisted.
      replace (Z.to_nat m) with (S (Z.to_nat (m - 1))) by lia. reflexivity.
    + done.
    + by eapply copy_back_text.
  - intros now d w1 Hm1 Hfresh Hsave.
    rewrite (save_clip_image_unfold _ _ _ _ _ Hc Hm) in Hsave.
    destruct (image_dup clips _ w); [discriminate|].
    destruct (CLIPS_DIR w) as [dir|] eqn:Hdir; [|discriminate].
    rewrite persist_spec in Hsave by lia. injection Hsave as <-.
    set (w1 := persisted _ m _).
    assert (max_clips_of w1 = Ok m) as Hm'.
    { unfold w1, written. by rewrite max_clips_persisted, max_clips_map_blobs. }
    destruct (show_clip_ok self (image_record now d) _ m Hm') as (shown & Eshow & Hcur).
    exists (image_record now d), (take (Z.to_nat (m - 1)) clips), shown.
    split; [|split].
    + unfold w1. rewrite stored_persisted.
      replace (Z.to_nat m) with (S (Z.to_nat (m - 1))) by lia. reflexivity.
    + done.
    + eapply copy_back_image; [exact Hcur|].
      unfold w1. rewrite dir_blobs_persisted.
      replace (Z.to_nat m) with (S (Z.to_nat (m - 1))) by lia. simpl.
      rewrite evict_lookup_kept.
      * rewrite dir_blobs_written by (rewrite Hdir; eauto). apply lookup_insert_eq.
      * intros Hin. apply Hfresh. by eapply names_of_drop.
Qed.

End CopyBack.

(** * Bounded retention (C3) *)

Lemma py_int_mono (x y : Q) : (x <= y)%Q → py_int x ≤ py_int y.
Proof.
  destruct x as [a b], y as [c d]. unfold Qle, py_int. simpl. intros Hle.
  rewrite <- (Z.quot_mul_cancel_r a (Z.pos b) (Z.pos d)) by lia.
  rewrite <- (Z.quot_mul_cancel_r c (Z.pos d) (Z.pos b)) by lia.
  replace (Z.pos d * Z.pos b) with (Z.pos b * Z.pos d) by lia.
  apply Z.quot_le_mono; lia.
Qed.

Lemma take_app_take {A} (n : nat) (l k : list A) :
  take n (l ++ take n k) = take n (l ++ k).
Proof. rewrite !take_app, take_take. do 2 f_equal. lia. Qed.

Lemma elem_of_drop_app_take {A} (x : A) (n : nat) (l k : list A) :
  x ∈ drop n (l ++ k) → x ∈ drop n (l ++ take n k) ∨ x ∈ drop n k.
Proof.
  rewrite <- (take_drop n k) at 1. rewrite app_assoc, drop_app.
  intros [Hin|Hin]%elem_of_app; [by left|right].
  by eapply elem_of_drop_whole.
Qed.

Section Retention.
Context `{Platform}.

(** A capture that completes either was a duplicate and changed nothing,
    or persisted a sequence pruned to [max_clips]. *)
Lemma save_clip_completes now clip_type data w clips m saved w1 :
  stored w = Ok clips → max_clips_of w = Ok m →
  save_clip now clip_type data w = (Ok saved, w1) →
  (saved = false ∧ w1 = w)
  ∨ (saved = true ∧ 0 ≤ m ∧ ∃ cl w0, w1 = persisted cl m w0).
Proof.
  intros Hc Hm Hsave.
  assert (∀ cl w0,
    (clips ← auto_prune cl m; save_clips clips;; mret true) w0 = (Ok saved, w1) →
    saved = true ∧ 0 ≤ m ∧ ∃ cl w0, w1 = persisted cl m w0) as Hpersist.
  { intros cl w0 E. destruct (decide (0 ≤ m)).
    - rewrite persist_spec in E by done. injection E as <- <-. eauto.
    - rewrite persist_negative in E by lia. discriminate. }
  destruct (decide (clip_type = "text")) as [->|Ht];
    [|destruct (decide (clip_type = "image")) as [->|Hi]].
  - destruct data as [s|b].
    + rewrite (save_clip_text_unfold _ _ _ _ _ Hc Hm) in Hsave.
      destruct (text_dup clips s); [injection Hsave as <- <-; by left|].
      right. by eapply Hpersist.
    + rewrite (save_clip_text_bytes _ _ _ _ _ Hc Hm) in Hsave. discriminate.
  - rewrite (save_clip_image_any _ _ _ _ _ Hc Hm) in Hsave.
    destruct (image_dup clips _ w); [injection Hsave as <- <-; by left|].
    destruct data as [s|d]; [discriminate|].
    destruct (CLIPS_DIR w); [|discriminate].
    right. by eapply Hpersist.
  - rewrite (save_clip_other_unfold _ _ _ _ _ _ Hc Hm Ht Hi) in Hsave.
    right. by eapply Hpersist.
Qed.

(** A capture of a known kind that is saved put its record at the head
    before pruning, and changed no blob other than its own. *)
Lemma save_clip_saved_inv (c : capture) w clips m w1 :
  stored w = Ok clips → max_clips_of w = Ok m → known_kind c →
  save_clip (cap_now c) (cap_type c) (cap_data c) w = (Ok true, w1) →
  ∃ r w0, record_of c = Some r ∧ 0 ≤ m
          ∧ clip_id r = py_int (cap_now c)
          ∧ w1 = persisted (r :: clips) m w0
          ∧ max_clips_of w0 = Ok m
          ∧ (∀ name, clip_blob r ≠ Some name →
                     dir_blobs w0 !! name = dir_blobs w !! name).
Proof.
  intros Hc Hm Hk Hsave. destruct c as [now ty data].
  unfold known_kind in Hk. simpl in *.
  assert (∀ cl w0,
    (clips ← auto_prune cl m; save_clips clips;; mret true) w0 = (Ok true, w1) →
    0 ≤ m ∧ w1 = persisted cl m w0) as Hpersist.
  { intros cl w0 E. destruct (decide (0 ≤ m)).
    - rewrite persist_spec in E by done. by injection E as <-.
    - rewrite persist_negative in E by lia. discriminate. }
  unfold record_of. simpl. destruct Hk as [->| ->].
  - rewrite bool_decide_eq_true_2 by done. destruct data as [s|b].
    + rewrite (save_clip_text_unfold _ _ _ _ _ Hc Hm) in Hsave.
      destruct (text_dup clips s); [discriminate|].
      apply Hpersist in Hsave as [Hpos ->].
      exists (text_record now s), w. repeat split; done.
    + rewrite (save_clip_text_bytes _ _ _ _ _ Hc Hm) in Hsave. discriminate.
  - rewrite bool_decide_eq_false_2, bool_decide_eq_true_2 by done.
    rewrite (save_clip_image_any _ _ _ _ _ Hc Hm) in Hsave.
    destruct (image_dup clips _ w); [discriminate|].
    destruct data as [s|d]; [discriminate|].
    destruct (CLIPS_DIR w) as [dir|] eqn:Hdir; [|discriminate].
    apply Hpersist in Hsave as [Hpos ->].
    exists (image_record now d), (written (blob_name now) d w). repeat split; try done.
    { unfold written. by rewrite max_clips_map_blobs. }
    intros name Hne. rewrite dir_blobs_written by (rewrite Hdir; eauto).
    apply lookup_insert_ne. simpl in Hne. congruence.
Qed.

(** What a run of saved captures leaves in the index. *)
Lemma save_all_saved_index (m : Z) (caps : list capture) :
  ∀ w clips w',
    stored w = Ok clips → max_clips_of w = Ok m → Z.of_nat (length clips) ≤ m →
    Forall known_kind caps →
    save_all caps w = (Ok (replicate (length caps) true), w') →
    stored w' = Ok (take (Z.to_nat m) (rev (records_of caps) ++ clips))
    ∧ Forall2 (λ c r, record_of c = Some r ∧ clip_id r = py_int (cap_now c))
              caps (records_of caps).
Proof.
  induction caps as [|c rest IH]; intros w clips w' Hc Hm Hlen Hk Hrun.
  - injection Hrun as <-. simpl. rewrite take_ge by lia. by split; [|constructor].
  - apply Forall_cons in Hk as [Hkc Hk].
    rewrite save_all_cons in Hrun.
    destruct (save_clip _ _ _ w) as [[saved|e] w1] eqn:Esave; [|discriminate].
    destruct (save_all rest w1) as [[others|e] w2] eqn:Erest; [|discriminate].
    simpl in Hrun. injection Hrun as -> -> ->.
    destruct (save_clip_saved_inv c w clips m w1 Hc Hm Hkc Esave)
      as (r & w0 & Hr & Hpos & Hid & -> & Hm0 & _).
    destruct (IH (persisted (r :: clips) m w0) (take (Z.to_nat m) (r :: clips)) w')
      as [Hst HF];
      [reflexivity | by rewrite max_clips_persisted | rewrite length_take; lia
      | done | done |].
    unfold records_of in *. simpl. rewrite Hr. simpl. split.
    + rewrite Hst, take_app_take, <- app_assoc. reflexivity.
    + by constructor.
Qed.

Lemma names_of_cons (r : clip) (cs : list clip) (name : string) :
  name ∈ names_of (r :: cs) ↔ clip_blob r = Some name ∨ name ∈ names_of cs.
Proof.
  unfold names_of. simpl. destruct (clip_blob r) as [f|]; simpl.
  - rewrite elem_of_cons. split; intros [E|E]; auto; left; congruence.
  - split; [auto | by intros [?|?]].
Qed.

(** The blobs of evicted records stay off the disk as long as no later
    capture writes a file of the same name. *)
Lemma save_all_saved_blobs (m : Z) (caps : list capture) :
  ∀ w clips w' (dead : list string),
    stored w = Ok clips → max_clips_of w = Ok m → Z.of_nat (length clips) ≤ m →
    Forall known_kind caps →
    save_all caps w = (Ok (replicate (length caps) true), w') →
    NoDup (names_of (records_of caps)) →
    (∀ name, name ∈ names_of (records_of caps) →
             (name ∉ dead) ∧ (name ∉ names_of clips)) →
    (∀ name, name ∈ dead → dir_blobs w !! name = None) →
    ∀ name,
      name ∈ dead
      ∨ name ∈ names_of (drop (Z.to_nat m) (rev (records_of caps) ++ clips)) →
      dir_blobs w' !! name = None.
Proof.
  induction caps as [|c rest IH];
    intros w clips w' dead Hc Hm Hlen Hk Hrun Hnd Hfresh Hdead name Hname.
  - injection Hrun as <-. simpl in Hname. rewrite drop_ge in Hname by lia.
    destruct Hname as [Hin|Hin]; [auto | by apply elem_of_nil in Hin].
  - apply Forall_cons in Hk as [Hkc Hk].
    rewrite save_all_cons in Hrun.
    destruct (save_clip _ _ _ w) as [[saved|e] w1] eqn:Esave; [|discriminate].
    destruct (save_all rest w1) as [[others|e] w2] eqn:Erest; [|discriminate].
    simpl in Hrun. injection Hrun as -> -> ->.
    destruct (save_clip_saved_inv c w clips m w1 Hc Hm Hkc Esave)
      as (r & w0 & Hr & Hpos & Hid & -> & Hm0 & Hsame).
    assert (records_of (c :: rest) = r :: records_of rest) as Hrecs.
    { unfold records_of. simpl. by rewrite Hr. }
    rewrite Hrecs in *. clear Hrecs.
    assert (NoDup (names_of (records_of rest))
            ∧ ∀ n, clip_blob r = Some n → n ∉ names_of (records_of rest))
      as [Hnd' Hrfresh].
    { unfold names_of in *. simpl in Hnd. destruct (clip_blob r) as [f|]; simpl in Hnd.
      - apply NoDup_cons in Hnd as [Hnot Hnd]. split; [done|]. by intros n [= <-].
      - split; [done|]. intros n [=]. }
    set (N := Z.to_nat m) in *.
    set (gone := drop N (r :: clips)).
    apply (IH (persisted (r :: clips) m w0) (take N (r :: clips)) w'
              (dead ++ names_of gone)%list).
    + reflexivity.
    + by rewrite max_clips_persisted.
    + rewrite length_take. lia.
    + done.
    + done.
    + done.
    + intros n Hn.
      assert ((n ∉ dead) ∧ (n ∉ names_of clips)) as [Hnd1 Hnc].
      { apply Hfresh, names_of_cons. by right. }
      assert (n ∉ names_of (r :: clips)) as Hnrc.
      { intros [Hrn|Hcn]%names_of_cons; [|done]. by apply (Hrfresh n). }
      split.
      * intros [Hd|Hg]%elem_of_app; [done|].
        apply Hnrc. by eapply names_of_drop.
      * intros Ht. apply Hnrc. by eapply names_of_take.
    + intros n [Hd|Hg]%elem_of_app.
      * rewrite dir_blobs_persisted. apply evict_lookup_None.
        rewrite Hsame; [by apply Hdead|].
        intros Hrn. destruct (Hfresh n) as [Hnd1 _]; [|done].
        apply names_of_cons. by left.
      * rewrite dir_blobs_persisted. by apply evict_lookup_gone.
    + destruct Hname as [Hd|Hg].
      * left. apply elem_of_app. by left.
      * simpl in Hg. rewrite <- app_assoc in Hg. simpl in Hg.
        unfold names_of in Hg. apply list_elem_of_omap in Hg as (e & He & Hen).
        apply elem_of_drop_app_take in He as [He|He].
        -- right. unfold names_of. apply list_elem_of_omap. eauto.
        -- left. apply elem_of_app. right.
           unfold names_of. apply list_elem_of_omap. eauto.
Qed.

Lemma records_ids_sorted (caps : list capture) (recs : list clip) :
  Forall2 (λ c r, record_of c = Some r ∧ clip_id r = py_int (cap_now c)) caps recs →
  StronglySorted Qle (cap_now <$> caps) →
  StronglySorted (λ a b, clip_id a ≤ clip_id b) recs.
Proof.
  induction 1 as [|c r caps recs [_ Hid] HF IH]; intros Hs; [constructor|].
  simpl in Hs. apply StronglySorted_cons in Hs as [Hall Hs].
  apply StronglySorted_cons. split; [|by apply IH].
  clear IH Hs. induction HF as [|c' r' caps recs [_ Hid'] HF IH]; [constructor|].
  simpl in Hall. apply Forall_cons in Hall as [Hle Hall].
  constructor; [|by apply IH].
  rewrite Hid, Hid'. by apply py_int_mono.
Qed.

(** C3, as the code has it.  From a store no longer than [max_clips],
    every capture that completes leaves a store no longer than
    [max_clips].  With [max_clips = N], after [N + k] captures of text or
    image that were all saved, the store holds exactly [N] records: the
    records of the last [N] captures, newest first, each with the second
    of its capture as id; when the clock readings of the captures do not
    decrease, no dropped record of the run has a larger id than a
    retained one.  When the blob names of the run's image records are
    pairwise distinct and name no blob of the initial store (as for
    captures in distinct seconds), no image record that was dropped has
    its blob on disk. *)
Theorem bounded_retention (w : world) (clips : list clip) (m : Z) :
  stored w = Ok clips → max_clips_of w = Ok m → Z.of_nat (length clips) ≤ m →
  (∀ now clip_type data saved w1,
     save_clip now clip_type data w = (Ok saved, w1) →
     ∃ kept, stored w1 = Ok kept ∧ Z.of_nat (length kept) ≤ m)
  ∧ (∀ caps w',
       Forall known_kind caps →
       save_all caps w = (Ok (replicate (length caps) true), w') →
       m ≤ Z.of_nat (length caps) →
       let recs := records_of caps in
       let kept := take (Z.to_nat m) (rev recs) in
       stored w' = Ok kept
       ∧ Z.of_nat (length kept) = m
       ∧ Forall2 (λ c r, record_of c = Some r ∧ clip_id r = py_int (cap_now c))
                 caps recs
       ∧ (StronglySorted Qle (cap_now <$> caps) →
          ∀ k g, k ∈ kept → g ∈ drop (Z.to_nat m) (rev recs) →
                 clip_id g ≤ clip_id k)
       ∧ (NoDup (names_of recs) →
          (∀ name, name ∈ names_of recs → name ∉ names_of clips) →
          ∀ g name,
            g ∈ drop (Z.to_nat m) (rev recs ++ clips) →
            clip_blob g = Some name → ¬ on_disk name w')).
Proof.
  intros Hc Hm Hlen. split.
  - intros now clip_type data saved w1 Hsave.
    destruct (save_clip_completes _ _ _ _ _ _ _ _ Hc Hm Hsave)
      as [[_ ->]|(_ & Hpos & cl & w0 & ->)].
    + by exists clips.
    + eexists. split; [apply stored_persisted|]. rewrite length_take. lia.
  - intros caps w' Hk Hrun Hcaps recs kept.
    destruct (save_all_saved_index m caps w clips w' Hc Hm Hlen Hk Hrun) as [Hst HF].
    fold recs in Hst, HF.
    assert (length recs = length caps) as Hrl by (symmetry; by eapply Forall2_length).
    assert (Z.to_nat m ≤ length (rev recs))%nat as Hle by (rewrite length_rev; lia).
    repeat apply conj.
    + rewrite Hst. by rewrite take_app_le.
    + unfold kept. rewrite length_take. lia.
    + done.
    + intros Hsorted k g Hk' Hg.
      pose proof (records_ids_sorted caps recs HF Hsorted) as Hs.
      rewrite <- (rev_involutive recs), <- (take_drop (Z.to_nat m) (rev recs)) in Hs.
      rewrite rev_app_distr in Hs. apply StronglySorted_app in Hs as (Hcross & _ & _).
      apply Hcross; by apply list_elem_of_In, in_rev; rewrite rev_involutive;
        apply list_elem_of_In.
    + intros Hnd Hfresh g name Hg Hname [blob Hblob].
      rewrite (save_all_saved_blobs m caps w clips w' [] Hc Hm Hlen Hk Hrun Hnd)
        in Hblob; [discriminate| | |].
      * intros n Hn. split; [apply not_elem_of_nil | by apply Hfresh].
      * by intros n ?%elem_of_nil.
      * right. unfold names_of. apply list_elem_of_omap. eauto.
Qed.

End Retention.

(** * The statements at concrete inputs *)

Lemma text_capture_dedup_witness :
  stored fresh_world = Ok [] ∧ max_clips_of fresh_world = Ok 50
  ∧ ∃ w2 w3,
      save_all (H := sample_platform)
        [Capture 5 "text" (DStr "a"); Capture 6 "text" (DStr "a")] fresh_world
      = (Ok [true; false], w2)
      ∧ stored w2 = Ok [text_record 5 "a"]
      ∧ save_all (H := sample_platform)
          [Capture 5 "text" (DStr "a"); Capture 6 "text" (DStr "a");
           Capture 7 "text" (DStr "b")] fresh_world
        = (Ok [true; false; true], w3)
      ∧ stored w3 = Ok [text_record 7 "b"; text_record 5 "a"].
Proof.
  split; [reflexivity|]. split; [reflexivity|].
  destruct (text_capture_dedup (H := sample_platform) fresh_world [] 50
              eq_refl eq_refl) as (_ & _ & Hrun).
  apply (Hrun eq_refl); [lia | discriminate].
Defined.

Lemma image_capture_dedup_witness :
  fst (save_all (H := sample_platform)
         [Capture 5 "image" (DBytes png2); Capture 6 "image" (DBytes png2')]
         (empty_store 50))
  = Ok [true; false].
Proof.
  destruct (image_capture_dedup (H := sample_platform) (empty_store 50) [] 50
              eq_refl eq_refl) as (_ & _ & Hrun).
  apply (Hrun eq_refl); [simpl; eauto | lia].
Defined.

Lemma missing_head_blob_never_duplicate_witness :
  fst (save_clip (H := sample_platform) 9 "image" (DBytes []) orphan_store) ≠ Ok false.
Proof.
  apply (missing_head_blob_never_duplicate (H := sample_platform)
           orphan_store 50 5 "img_5.png" 5 "Image" [] 9 []).
  - reflexivity.
  - reflexivity.
  - intros [blob Hblob]. vm_compute in Hblob. discriminate.
Defined.

Lemma unknown_kind_reported_saved_witness :
  ∃ w', save_clip (H := sample_platform) 9 "file" (DStr "a") orphan_store = (Ok true, w')
        ∧ stored w' = Ok [orphan].
Proof.
  destruct (unknown_kind_reported_saved (H := sample_platform)
              orphan_store [orphan] 50 9 "file" (DStr "a"))
    as (w' & Hsave & Hst & _); [reflexivity | reflexivity | lia | discriminate
                                | discriminate |].
  exists w'. split; [exact Hsave | exact Hst].
Defined.

Lemma clear_all_clips_clears_witness :
  ∃ w', clear_all_clips orphan_store = (Ok (), w')
        ∧ stored w' = Ok [] ∧ ¬ on_disk "img_5.png" w'.
Proof.
  destruct (clear_all_clips_clears orphan_store [orphan] eq_refl)
    as (w' & Hclear & Hst & Hgone).
  exists w'. split; [exact Hclear|]. split; [exact Hst|].
  apply (Hgone orphan); [apply list_elem_of_here | reflexivity].
Defined.

Lemma load_settings_defaults_only_when_absent_witness :
  load_settings fresh_world = (Ok default_settings, fresh_world)
  ∧ load_settings (World None Malformed) = (Raise JSONDecodeError, World None Malformed).
Proof.
  split.
  - apply (load_settings_defaults_only_when_absent (H := sample_platform) fresh_world).
    reflexivity.
  - apply (load_settings_defaults_only_when_absent (H := sample_platform)
             (World None Malformed)).
    reflexivity.
Defined.

Lemma relative_time_buckets_witness :
  1 ≤ py_int ((100 - inject_Z 0) / 60) ≤ 59
  ∧ relative_time 100 0 = pretty (py_int ((100 - inject_Z 0) / 60)) +:+ " min ago".
Proof.
  destruct (relative_time_buckets 100 0) as (_ & Hmin & _).
  apply Hmin; vm_compute; [discriminate | reflexivity].
Defined.

Lemma missing_blob_degrades_witness :
  render_image_preview (H := sample_platform) "img_5.png" 5 orphan_store
  = (Ok "<html><body><p>Image not found: img_5.png</p></body></html>", orphan_store)
  ∧ userContentController_didReceiveScriptMessage_
      (Some (MkFloatingWindow None (Some 5) (Some orphan)))
      [(NSPasteboardTypeString, DStr "kept")] orphan_store
    = (Ok [], orphan_store).
Proof.
  destruct (missing_blob_degrades (H := sample_platform) orphan_store
              5 "img_5.png" 5 "Image") as [Hrender Hcopy].
  - intros [blob Hblob]. vm_compute in Hblob. discriminate.
  - split; [exact Hrender|]. apply Hcopy. reflexivity.
Defined.

Lemma copy_back_round_trip_witness :
  ∃ c rest shown,
    stored (snd (save_clip (H := sample_platform) 5 "image" (DBytes png2) (empty_store 50)))
    = Ok (c :: rest)
    ∧ show_clip (H := sample_platform) FloatingWindow_init c
        (snd (save_clip (H := sample_platform) 5 "image" (DBytes png2) (empty_store 50)))
      = (Ok shown,
         snd (save_clip (H := sample_platform) 5 "image" (DBytes png2) (empty_store 50)))
    ∧ userContentController_didReceiveScriptMessage_ (Some shown)
        [(NSPasteboardTypeString, DStr "old")]
        (snd (save_clip (H := sample_platform) 5 "image" (DBytes png2) (empty_store 50)))
      = (Ok [(NSPasteboardTypePNG, DBytes png2)],
         snd (save_clip (H := sample_platform) 5 "image" (DBytes png2) (empty_store 50))).
Proof.
  destruct (copy_back_round_trip (H := sample_platform) (empty_store 50) [] 50
              FloatingWindow_init [(NSPasteboardTypeString, DStr "old")]
              eq_refl eq_refl) as (_ & _ & _ & Himage).
  apply (Himage 5%Q png2).
  - lia.
  - apply not_elem_of_nil.
  - vm_compute. reflexivity.
Defined.

Lemma bounded_retention_witness :
  stored (snd (save_all (H := sample_platform) sample_run (empty_store 1)))
  = Ok [text_record 7 "b"]
  ∧ ¬ on_disk "img_5.png" (snd (save_all (H := sample_platform) sample_run (empty_store 1))).
Proof.
  destruct (bounded_retention (H := sample_platform) (empty_store 1) [] 1
              eq_refl eq_refl) as [_ Hrun]; [simpl; lia|].
  destruct (Hrun sample_run
              (snd (save_all (H := sample_platform) sample_run (empty_store 1))))
    as (Hst & _ & _ & _ & Hblobs).
  - repeat constructor; (left; reflexivity) || (right; reflexivity).
  - vm_compute. reflexivity.
  - simpl. lia.
  - split; [exact Hst|].
    apply (Hblobs) with (g := image_record (H := sample_platform) 5 png1).
    + vm_compute. apply NoDup_cons. split; [apply not_elem_of_nil | apply NoDup_nil_2].
    + intros name _. apply not_elem_of_nil.
    + apply list_elem_of_In. vm_compute. right. left. reflexivity.
    + reflexivity.
Defined.

(** ** Where the code departs from the specification *)

(** Against C3: all three captures are saved, one record is retained, and
    the blob named by the dropped image record of the first capture is on
    disk. *)
Lemma dropped_blob_back_on_disk :
  let w' := snd (save_all (H := sample_platform) same_second_run (empty_store 1)) in
  fst (save_all (H := sample_platform) same_second_run (empty_store 1))
  = Ok [true; true; true]
  ∧ records_of (H := sample_platform) same_second_run
    = [ImageClip 5 "img_5.png" 5 "Screenshot (1x1)"; text_record (53 # 10) "a";
       ImageClip 5 "img_5.png" 5 "Screenshot (2x1)"]
  ∧ stored w' = Ok [ImageClip 5 "img_5.png" 5 "Screenshot (2x1)"]
  ∧ clip_blob (ImageClip 5 "img_5.png" 5 "Screenshot (1x1)") = Some "img_5.png"
  ∧ on_disk "img_5.png" w'.
Proof.
  repeat split; try (vm_compute; reflexivity).
  exists png2. vm_compute. reflexivity.
Qed.

(** Against C5: with a settings file that does not parse, loading the
    settings does not yield the defaults, and a capture does not
    complete. *)
Lemma malformed_settings_raise :
  SETTINGS_PATH (World None Malformed) = Malformed
  ∧ fst (load_settings (World None Malformed)) ≠ Ok default_settings
  ∧ fst (save_clip (H := sample_platform) 5 "text" (DStr "a") (World None Malformed))
    = Raise JSONDecodeError.
Proof. repeat split. discriminate. Qed.

(** Against C7: the second capture is saved and its record is the stored
    head, yet showing that record and copying it back leaves nothing on
    the pasteboard: pruning the first record deleted the blob both
    records name. *)
Lemma round_trip_lost_in_same_second :
  let w1 := snd (save_all (H := sample_platform) overwriting_run (empty_store 1)) in
  let c := ImageClip 5 "img_5.png" 5 "Screenshot (2x1)" in
  fst (save_all (H := sample_platform) overwriting_run (empty_store 1)) = Ok [true; true]
  ∧ stored w1 = Ok [c]
  ∧ ∃ shown,
      show_clip (H := sample_platform) FloatingWindow_init c w1 = (Ok shown, w1)
      ∧ _current_clip shown = Some c
      ∧ fst (userContentController_didReceiveScriptMessage_ (Some shown) [] w1) = Ok []
      ∧ fst (userContentController_didReceiveScriptMessage_ (Some shown) [] w1)
        ≠ Ok [(NSPasteboardTypePNG, DBytes png2)].
Proof.
  intros w1 c. split; [vm_compute; reflexivity|]. split; [vm_compute; reflexivity|].
  assert (max_clips_of w1 = Ok 1) as Hm by (vm_compute; reflexivity).
  destruct (show_clip_ok (H := sample_platform) FloatingWindow_init c w1 1 Hm)
    as (shown & Hshow & Hcur).
  exists shown. split; [exact Hshow|]. split; [exact Hcur|].
  assert (¬ on_disk "img_5.png" w1) as Hmiss.
  { intros [blob Hblob]. vm_compute in Hblob. discriminate. }
  rewrite (copy_back_image_missing shown [] w1 5 "img_5.png" 5 "Screenshot (2x1)" Hcur Hmiss).
  split; [reflexivity | discriminate].
Qed.

(** Against C8: copy-back for an image record whose blob is missing is
    not a no-op, the pasteboard loses what it held. *)
Lemma copy_back_missing_clears_pasteboard :
  ¬ on_disk "img_5.png" orphan_store
  ∧ fst (userContentController_didReceiveScriptMessage_
           (Some (MkFloatingWindow None (Some 5) (Some orphan)))
           [(NSPasteboardTypeString, DStr "kept")] orphan_store)
    ≠ Ok [(NSPasteboardTypeString, DStr "kept")].
Proof.
  split.
  - intros [blob Hblob]. vm_compute in Hblob. discriminate.
  - vm_compute. discriminate.
Qed.

(** * Further properties of the store *)

(** ** The preview of a text record *)








(** ** Captures at the edges of the configuration *)

Section ConfigurationEdges.
Context `{Platform}.

(** X2.  While the clip directory does not exist, an image capture raises
    [FileNotFoundError] and changes nothing: the blob is written before
    [save_clips] creates the directory.  A text capture creates the
    directory and is stored. *)
Theorem capture_into_missing_directory (w : world) (m : Z) :
  CLIPS_DIR w = None → max_clips_of w = Ok m →
  (∀ now d, save_clip now "image" (DBytes d) w = (Raise FileNotFoundError, w))
  ∧ (1 ≤ m → ∀ now s,
       ∃ w', save_clip now "text" (DStr s) w = (Ok true, w')
             ∧ is_Some (CLIPS_DIR w')
             ∧ stored w' = Ok [text_record now s]).
Proof.
  intros Hdir Hm.
  assert (stored w = Ok []) as Hc.
  { unfold stored, load_clips, dir_index. by rewrite Hdir. }
  split.
  - intros now d. rewrite (save_clip_image_unfold _ _ _ _ _ Hc Hm). simpl.
    by rewrite Hdir.
  - intros Hm1 now s. eexists. split; [|split].
    + apply (save_clip_text_saved now s w [] m Hc Hm); [lia | reflexivity].
    + simpl. eauto.
    + rewrite stored_persisted. by rewrite take_ge by (simpl; lia).
Qed.

(** X3.  With a negative [max_clips] no capture is ever saved.  A text capture
    that is not a duplicate raises [IndexError] out of the prune loop: the
    index is left as it was, but the blob of every stored image record
    has been deleted. *)
Theorem negative_max_clips_destroys_blobs (w : world) (clips : list clip) (m : Z) :
  stored w = Ok clips → max_clips_of w = Ok m → m < 0 →
  (∀ now clip_type data, fst (save_clip now clip_type data w) ≠ Ok true)
  ∧ (∀ now s,
       fst (save_clip now "text" (DStr s) w) ≠ Ok false →
       ∃ w', save_clip now "text" (DStr s) w = (Raise IndexError, w')
             ∧ stored w' = Ok clips
             ∧ ∀ c name, c ∈ clips → clip_blob c = Some name → ¬ on_disk name w').
Proof.
  intros Hc Hm Hneg. split.
  - intros now clip_type data Hsaved.
    destruct (save_clip now clip_type data w) as [[saved|e] w1] eqn:Esave;
      [|discriminate].
    simpl in Hsaved. injection Hsaved as ->.
    destruct (save_clip_completes _ _ _ _ _ _ _ _ Hc Hm Esave)
      as [[? _]|(_ & Hpos & _)]; [discriminate | lia].
  - intros now s Hnd. rewrite (save_clip_text_duplicate _ _ _ _ _ Hc Hm) in Hnd.
    rewrite (save_clip_text_unfold _ _ _ _ _ Hc Hm).
    destruct (text_dup clips s); [done|].
    rewrite persist_negative by done. eexists. split; [reflexivity|]. split.
    + by rewrite stored_map_blobs.
    + intros c name Hin Hname [blob Hblob].
      rewrite dir_blobs_map_blobs in Hblob by apply evict_empty.
      rewrite evict_lookup_gone in Hblob; [discriminate|].
      apply names_of_cons. right. unfold names_of. apply list_elem_of_omap. eauto.
Qed.

(** X4.  With [max_clips = 0] a capture of text or image that is not a
    duplicate still returns [True], but nothing is kept: the store is
    empty afterwards and the blob an image capture wrote is deleted
    again. *)
Theorem zero_max_clips_keeps_nothing (w : world) (clips : list clip)
    (c : capture) (w' : world) :
  stored w = Ok clips → max_clips_of w = Ok 0 → known_kind c →
  save_clip (cap_now c) (cap_type c) (cap_data c) w = (Ok true, w') →
  stored w' = Ok []
  ∧ (cap_type c = "image" → ¬ on_disk (blob_name (cap_now c)) w')
  ∧ (∀ r name, r ∈ clips → clip_blob r = Some name → ¬ on_disk name w').
Proof.
  intros Hc Hm Hk Hsave.
  destruct (save_clip_saved_inv c w clips 0 w' Hc Hm Hk Hsave)
    as (r & w0 & Hr & _ & _ & -> & _ & _).
  split; [reflexivity|]. split.
  - intros Hty [blob Hblob]. rewrite dir_blobs_persisted in Hblob.
    rewrite evict_lookup_gone in Hblob; [discriminate|].
    change (blob_name (cap_now c) ∈ names_of (r :: clips)).
    apply names_of_cons. left.
    unfold record_of in Hr. rewrite Hty in Hr. simpl in Hr.
    destruct (cap_data c); [discriminate|]. by injection Hr as <-.
  - intros r' name Hin Hname [blob Hblob].
    rewrite dir_blobs_persisted in Hblob.
    rewrite evict_lookup_gone in Hblob; [discriminate|].
    change (name ∈ names_of (r :: clips)).
    apply names_of_cons. right. unfold names_of. apply list_elem_of_omap. eauto.
Qed.

End ConfigurationEdges.

(** ** What a completed capture leaves behind *)

Lemma names_of_app (l k : list clip) : names_of (l ++ k) = (names_of l ++ names_of k)%list.
Proof. apply omap_app. Qed.

Lemma names_of_elem (c : clip) (cs : list clip) (name : string) :
  c ∈ cs → clip_blob c = Some name → name ∈ names_of cs.
Proof. intros Hin Hname. unfold names_of. apply list_elem_of_omap. eauto. Qed.

Section CaptureOutcome.
Context `{Platform}.

(** The shape of every completed capture: nothing changed, or at most one
    new record was put in front of the loaded sequence, which was then
    pruned and persisted; the only blob written is the new record's. *)
Lemma save_clip_outcome now clip_type data w clips m saved w1 :
  stored w = Ok clips → max_clips_of w = Ok m →
  save_clip now clip_type data w = (Ok saved, w1) →
  (saved = false ∧ w1 = w)
  ∨ (saved = true ∧ 0 ≤ m ∧ ∃ new w0,
       (length new ≤ 1)%nat
       ∧ w1 = persisted (new ++ clips) m w0
       ∧ SETTINGS_PATH w0 = SETTINGS_PATH w
       ∧ (∀ name, name ∈ names_of new → clip_type = "image" ∧ name = blob_name now)
       ∧ (∀ name, name ∈ names_of new → on_disk name w0)
       ∧ (∀ name, name ∉ names_of new → dir_blobs w0 !! name = dir_blobs w !! name)).
Proof.
  intros Hc Hm Hsave.
  assert (∀ cl w0,
    (clips ← auto_prune cl m; save_clips clips;; mret true) w0 = (Ok saved, w1) →
    saved = true ∧ 0 ≤ m ∧ w1 = persisted cl m w0) as Hpersist.
  { intros cl w0 E. destruct (decide (0 ≤ m)).
    - rewrite persist_spec in E by done. by injection E as <- <-.
    - rewrite persist_negative in E by lia. discriminate. }
  destruct (decide (clip_type = "text")) as [->|Ht];
    [|destruct (decide (clip_type = "image")) as [->|Hi]].
  - destruct data as [s|b].
    + rewrite (save_clip_text_unfold _ _ _ _ _ Hc Hm) in Hsave.
      destruct (text_dup clips s); [injection Hsave as <- <-; by left|].
      apply Hpersist in Hsave as (-> & Hpos & ->). right.
      repeat split; [done|]. exists [text_record now s], w.
      split; [done|]. split; [done|]. split; [done|].
      split; [|split]; [| |done]; intros name Hin; by apply elem_of_nil in Hin.
    + rewrite (save_clip_text_bytes _ _ _ _ _ Hc Hm) in Hsave. discriminate.
  - rewrite (save_clip_image_any _ _ _ _ _ Hc Hm) in Hsave.
    destruct (image_dup clips _ w); [injection Hsave as <- <-; by left|].
    destruct data as [s|d]; [discriminate|].
    destruct (CLIPS_DIR w) as [dir|] eqn:Hdir; [|discriminate].
    apply Hpersist in Hsave as (-> & Hpos & ->). right.
    repeat split; [done|]. exists [image_record now d], (written (blob_name now) d w).
    assert (∀ name, name ∈ names_of [image_record now d] ↔ name = blob_name now) as Hn.
    { intros name. unfold names_of. simpl. rewrite elem_of_cons.
      split; [intros [?|?%elem_of_nil]; done | by left]. }
    split; [done|]. split; [done|]. split; [|split; [|split]].
    + unfold written, map_blobs. by rewrite Hdir.
    + intros name Hin. split; [done | by apply Hn].
    + intros name ->%Hn. unfold on_disk.
      rewrite dir_blobs_written by (rewrite Hdir; eauto).
      rewrite lookup_insert_eq. eauto.
    + intros name Hnot. rewrite dir_blobs_written by (rewrite Hdir; eauto).
      apply lookup_insert_ne. intros <-. by apply Hnot, Hn.
  - rewrite (save_clip_other_unfold _ _ _ _ _ _ Hc Hm Ht Hi) in Hsave.
    apply Hpersist in Hsave as (-> & Hpos & ->). right.
    repeat split; [done|]. exists [], w.
    split; [simpl; lia|]. split; [done|]. split; [done|].
    split; [|split]; [| |done]; intros name Hin; by apply elem_of_nil in Hin.
Qed.

(** X5.  A completed capture never rewrites, reorders or edits a stored
    record and never touches the settings file: the sequence it leaves is
    the old one, or a prefix of the old one with at most one new record
    in front. *)
Theorem capture_keeps_older_records (now : Q) (clip_type : string) (data : pydata)
    (w w' : world) (clips : list clip) (m : Z) (saved : bool) :
  stored w = Ok clips → max_clips_of w = Ok m →
  save_clip now clip_type data w = (Ok saved, w') →
  SETTINGS_PATH w' = SETTINGS_PATH w
  ∧ ∃ kept new older,
      stored w' = Ok kept ∧ kept = (new ++ older)%list
      ∧ (length new ≤ 1)%nat ∧ older `prefix_of` clips
      ∧ (saved = false → new = [] ∧ older = clips).
Proof.
  intros Hc Hm Hsave.
  destruct (save_clip_outcome _ _ _ _ _ _ _ _ Hc Hm Hsave)
    as [[-> ->]|(-> & Hpos & new & w0 & Hlen & -> & Hset & _)].
  - split; [done|]. exists clips, [], clips.
    split; [done|]. split; [done|]. split; [simpl; lia|]. by split.
  - split; [done|].
    exists (take (Z.to_nat m) (new ++ clips)),
           (take (Z.to_nat m) new), (take (Z.to_nat m - length new) clips).
    split; [done|]. split; [apply take_app|]. split; [rewrite length_take; lia|].
    split; [apply prefix_take | discriminate].
Qed.

Lemma max_clips_of_settings (w w' : world) :
  SETTINGS_PATH w' = SETTINGS_PATH w → max_clips_of w' = max_clips_of w.
Proof. intros E. unfold max_clips_of, load_settings. rewrite E. by destruct (SETTINGS_PATH w). Qed.

Lemma save_clip_blob_consistent (now : Q) (clip_type : string)
    (data : pydata) (w w' : world) (clips : list clip) (m : Z) (saved : bool) :
  stored w = Ok clips → max_clips_of w = Ok m →
  blob_consistent w → NoDup (names_of clips) →
  (clip_type = "image" → blob_name now ∉ names_of clips) →
  save_clip now clip_type data w = (Ok saved, w') →
  blob_consistent w'
  ∧ max_clips_of w' = Ok m
  ∧ ∃ kept, stored w' = Ok kept ∧ NoDup (names_of kept)
            ∧ ∀ name, name ∈ names_of kept →
                      name ∈ names_of clips
                      ∨ (clip_type = "image" ∧ name = blob_name now).
Proof.
  intros Hc Hm Hcons Hnd Hfresh Hsave.
  destruct (save_clip_outcome _ _ _ _ _ _ _ _ Hc Hm Hsave)
    as [[-> ->]|(-> & Hpos & new & w0 & Hlen & -> & Hset & Hnew & Hdisk & Hsame)].
  { split; [done|]. split; [done|]. exists clips. split; [done|]. split; [done|]. auto. }
  assert (NoDup (names_of (new ++ clips))) as Hnd'.
  { rewrite names_of_app. apply NoDup_app. split; [|split; [|done]].
    - destruct new as [|r [|r' new]]; [constructor| |simpl in Hlen; lia].
      unfold names_of. simpl. destruct (clip_blob r); simpl; [|constructor].
      apply NoDup_singleton.
    - intros name Hin Hin'. destruct (Hnew name Hin) as [Hty ->]. by apply Hfresh. }
  pose proof Hnd' as Hsplit.
  rewrite <- (take_drop (Z.to_nat m) (new ++ clips)), names_of_app in Hsplit.
  apply NoDup_app in Hsplit as (Hndk & Hdisj & _).
  split; [|split].
  - intros kept c name [= <-] Hin Hname. unfold on_disk.
    rewrite dir_blobs_persisted, evict_lookup_kept
      by (apply Hdisj; by eapply names_of_elem).
    destruct (decide (name ∈ names_of new)) as [Hn|Hn]; [by apply Hdisk|].
    rewrite Hsame by done.
    apply (Hcons clips c name Hc); [|done].
    apply elem_of_take_whole, elem_of_app in Hin as [Hin|Hin]; [|done].
    exfalso. apply Hn. by eapply names_of_elem.
  - rewrite max_clips_persisted, <- Hm. by apply max_clips_of_settings.
  - eexists. split; [apply stored_persisted|]. split; [done|].
    intros name Hin%names_of_take. rewrite names_of_app in Hin.
    apply elem_of_app in Hin as [Hin|Hin]; [right; by apply Hnew | by left].
Qed.

(** X6.  A completed capture keeps every stored image record backed by its
    blob, as long as the stored records name pairwise distinct blobs and
    an image capture does not reuse the name of a stored blob. *)
Theorem capture_keeps_blobs_of_stored_records (now : Q) (clip_type : string)
    (data : pydata) (w w' : world) (clips : list clip) (m : Z) (saved : bool) :
  stored w = Ok clips → max_clips_of w = Ok m →
  blob_consistent w → NoDup (names_of clips) →
  (clip_type = "image" → blob_name now ∉ names_of clips) →
  save_clip now clip_type data w = (Ok saved, w') →
  blob_consistent w'
  ∧ ∃ kept, stored w' = Ok kept ∧ NoDup (names_of kept).
Proof.
  intros Hc Hm Hcons Hnd Hfresh Hsave.
  destruct (save_clip_blob_consistent _ _ _ _ _ _ _ _ Hc Hm Hcons Hnd Hfresh Hsave)
    as (Hcons' & _ & kept & Hst & Hnd' & _).
  split; [done|]. by exists kept.
Qed.

Lemma save_clip_orphan_free (now : Q) (clip_type : string) (data : pydata)
    (w w' : world) (clips : list clip) (m : Z) (saved : bool) :
  stored w = Ok clips → max_clips_of w = Ok m → orphan_free w →
  save_clip now clip_type data w = (Ok saved, w') →
  orphan_free w'.
Proof.
  intros Hc Hm Horph Hsave.
  destruct (save_clip_outcome _ _ _ _ _ _ _ _ Hc Hm Hsave)
    as [[-> ->]|(-> & Hpos & new & w0 & Hlen & -> & Hset & Hnew & Hdisk & Hsame)];
    [done|].
  intros kept name [= <-] [blob Hblob]. rewrite dir_blobs_persisted in Hblob.
  destruct (decide (name ∈ names_of (drop (Z.to_nat m) (new ++ clips)))) as [Hd|Hd].
  { rewrite evict_lookup_gone in Hblob by done. discriminate. }
  rewrite evict_lookup_kept in Hblob by done.
  assert (name ∈ names_of (new ++ clips)) as Hall.
  { rewrite names_of_app. apply elem_of_app.
    destruct (decide (name ∈ names_of new)) as [Hn|Hn]; [by left|right].
    apply (Horph clips name Hc). unfold on_disk. rewrite <- Hsame by done. eauto. }
  rewrite <- (take_drop (Z.to_nat m) (new ++ clips)), names_of_app in Hall.
  by apply elem_of_app in Hall as [Hk|Hg].
Qed.

(** X7.  A completed capture leaves no orphaned blob behind: if every blob on
    disk was named by a stored record before, the same holds after. *)
Theorem capture_leaves_no_orphan (now : Q) (clip_type : string) (data : pydata)
    (w w' : world) (clips : list clip) (m : Z) (saved : bool) :
  stored w = Ok clips → max_clips_of w = Ok m → orphan_free w →
  save_clip now clip_type data w = (Ok saved, w') →
  orphan_free w'.
Proof. apply save_clip_orphan_free. Qed.

(** X8.  Repeating a capture that just completed is answered as a duplicate
    and changes nothing, when [max_clips] is at least 1: for text always,
    for an image (with any bytes of the same length) when no stored
    record names the blob the first capture writes. *)
Theorem repeated_capture_is_duplicate (w w1 : world) (clips : list clip) (m : Z)
    (saved : bool) (t1 t2 : Q) :
  stored w = Ok clips → max_clips_of w = Ok m → 1 ≤ m →
  (∀ s, save_clip t1 "text" (DStr s) w = (Ok saved, w1) →
        save_clip t2 "text" (DStr s) w1 = (Ok false, w1))
  ∧ (∀ d d', blob_name t1 ∉ names_of clips → length d' = length d →
             save_clip t1 "image" (DBytes d) w = (Ok saved, w1) →
             save_clip t2 "image" (DBytes d') w1 = (Ok false, w1)).
Proof.
  intros Hc Hm Hm1. split.
  - intros s Hsave. rewrite (save_clip_text_unfold _ _ _ _ _ Hc Hm) in Hsave.
    destruct (text_dup clips s) eqn:Hd.
    + injection Hsave as <- <-.
      by rewrite (save_clip_text_unfold _ _ _ _ _ Hc Hm), Hd.
    + rewrite persist_spec in Hsave by lia. injection Hsave as <- <-.
      erewrite save_clip_text_unfold;
        [|apply stored_persisted | by rewrite max_clips_persisted].
      replace (Z.to_nat m) with (S (Z.to_nat (m - 1))) by lia. simpl.
      by rewrite bool_decide_eq_true_2.
  - intros d d' Hfresh Hlen Hsave.
    rewrite (save_clip_image_unfold _ _ _ _ _ Hc Hm) in Hsave.
    destruct (image_dup clips _ w) eqn:Hd.
    + injection Hsave as <- <-.
      by rewrite (save_clip_image_unfold _ _ _ _ _ Hc Hm), Hlen, Hd.
    + destruct (CLIPS_DIR w) as [dir|] eqn:Hdir; [|discriminate].
      rewrite persist_spec in Hsave by lia. injection Hsave as <- <-.
      erewrite save_clip_image_unfold;
        [|apply stored_persisted
         |unfold written; by rewrite max_clips_persisted, max_clips_map_blobs].
      replace (Z.to_nat m) with (S (Z.to_nat (m - 1))) by lia.
      unfold image_dup, image_record at 1. cbn [take].
      rewrite dir_blobs_persisted.
      replace (Z.to_nat m) with (S (Z.to_nat (m - 1))) by lia. cbn [drop].
      rewrite evict_lookup_kept by (intros Hin; by eapply Hfresh, names_of_drop).
      rewrite dir_blobs_written by (rewrite Hdir; eauto).
      rewrite lookup_insert_eq. by rewrite bool_decide_eq_true_2 by lia.
Qed.

End CaptureOutcome.

(** ** Clearing *)

Lemma clear_all_clips_spec (w : world) (clips : list clip) :
  stored w = Ok clips →
  clear_all_clips w
  = (Ok (), World (Some (ClipsDir (Parsed []) (evict (rev clips) (dir_blobs w))))
                  (SETTINGS_PATH w)).
Proof.
  intros Hc. unfold clear_all_clips.
  rewrite (mbind_Ok _ _ _ _ _ (load_clips_stored _ _ Hc)).
  rewrite (mbind_Ok _ _ _ _ _ (remove_blobs_spec clips w)).
  unfold save_clips. rewrite dir_blobs_map_blobs by apply evict_empty.
  by destruct w as [[[i b]|] s].
Qed.

(** X9.  [clear_all_clips] deletes the blobs the stored records name and
    nothing else: every other file of the directory and the settings file
    are left as they were.  Clearing again changes nothing, and if every
    blob was named by a stored record the directory holds no blob
    afterwards. *)
Theorem clear_all_clips_deletes_only_record_blobs (w : world) (clips : list clip) :
  stored w = Ok clips →
  ∃ w', clear_all_clips w = (Ok (), w')
        ∧ SETTINGS_PATH w' = SETTINGS_PATH w
        ∧ (∀ name, name ∉ names_of clips → dir_blobs w' !! name = dir_blobs w !! name)
        ∧ clear_all_clips w' = (Ok (), w')
        ∧ (orphan_free w → dir_blobs w' = ∅).
Proof.
  intros Hc. eexists. split; [by apply clear_all_clips_spec|].
  split; [reflexivity|]. split; [|split].
  - intros name Hnot. unfold dir_blobs at 1. simpl.
    apply evict_lookup_kept. by rewrite names_of_rev.
  - by rewrite (clear_all_clips_spec _ []).
  - intros Horph. unfold dir_blobs at 1. simpl. apply map_eq. intros name.
    rewrite lookup_empty.
    destruct (decide (name ∈ names_of clips)) as [Hin|Hnot].
    + apply evict_lookup_gone. by rewrite names_of_rev.
    + rewrite evict_lookup_kept by (by rewrite names_of_rev).
      destruct (dir_blobs w !! name) as [blob|] eqn:Eb; [|done].
      exfalso. apply Hnot, (Horph clips name Hc). unfold on_disk. rewrite Eb. eauto.
Qed.

(** X10.  An index file that does not parse makes every capture and every
    clear raise [JSONDecodeError] before any file is touched: the corrupt
    index is never overwritten and no blob is deleted. *)
Theorem malformed_index_blocks_store `{Platform} (w : world) :
  dir_index w = Malformed →
  (∀ now clip_type data,
     save_clip now clip_type data w = (Raise JSONDecodeError, w))
  ∧ clear_all_clips w = (Raise JSONDecodeError, w)
  ∧ (∀ now clip_type data,
       _on_save_clipboard now (Some (clip_type, data)) w = (Raise JSONDecodeError, w)).
Proof.
  intros Hidx.
  assert (load_clips w = (Raise JSONDecodeError, w)) as Hl.
  { unfold load_clips. by rewrite Hidx. }
  assert (∀ now clip_type data,
            save_clip now clip_type data w = (Raise JSONDecodeError, w)) as Hs.
  { intros now clip_type data. unfold save_clip. by rewrite (mbind_Raise _ _ _ _ _ Hl). }
  split; [done|]. split.
  - unfold clear_all_clips. by rewrite (mbind_Raise _ _ _ _ _ Hl).
  - intros now clip_type data. unfold _on_save_clipboard.
    by rewrite (mbind_Raise _ _ _ _ _ (Hs now clip_type data)).
Qed.

(** ** Blob names and capture seconds *)

Lemma string_app_length (x y : string) :
  String.length (x +:+ y) = (String.length x + String.length y)%nat.
Proof. induction x as [|c x IH]; simpl; [done | by rewrite IH]. Qed.

Lemma string_app_inv_tail (x y s : string) : x +:+ s = y +:+ s → x = y.
Proof.
  revert y. induction x as [|c x IH]; intros [|c' y] E.
  - done.
  - apply (f_equal String.length) in E.
    rewrite !string_app_length in E. simpl in E. lia.
  - apply (f_equal String.length) in E.
    rewrite !string_app_length in E. simpl in E. lia.
  - simpl in E. injection E as -> E. f_equal. by apply IH.
Qed.

Lemma sec_name_inj (t1 t2 : Z) : sec_name t1 = sec_name t2 → t1 = t2.
Proof.
  unfold sec_name. intros E. simpl in E. injection E as E.
  change (pretty t1 +:+ ".png" = pretty t2 +:+ ".png") in E.
  apply string_app_inv_tail in E. by apply (inj pretty).
Qed.

(** X11.  Two captures write the same blob file exactly when they fall in the
    same second; the record ids then coincide too. *)
Theorem blob_name_collides_iff_same_second `{Platform} (t1 t2 : Q)
    (d1 d2 : list Byte.byte) :
  (blob_name t1 = blob_name t2 ↔ py_int t1 = py_int t2)
  ∧ (clip_blob (image_record t1 d1) = clip_blob (image_record t2 d2)
     ↔ clip_id (image_record t1 d1) = clip_id (image_record t2 d2)).
Proof.
  assert (blob_name t1 = blob_name t2 ↔ py_int t1 = py_int t2) as Hn.
  { split; [apply sec_name_inj|]. unfold blob_name. by intros ->. }
  split; [done|]. unfold image_record. cbn [clip_blob clip_id]. split.
  - intros E. apply Hn. congruence.
  - intros E. f_equal. by apply Hn.
Qed.

Section DistinctSeconds.
Context `{Platform}.

Lemma save_all_keeps_invariants (m : Z) (caps : list capture) :
  ∀ w clips results w',
    stored w = Ok clips → max_clips_of w = Ok m →
    blob_consistent w → orphan_free w → NoDup (names_of clips) →
    (∀ name, name ∈ names_of clips →
             ∃ t, name = sec_name t ∧ Forall (λ c, t < cap_sec c) caps) →
    StronglySorted (λ a b, cap_sec a < cap_sec b) caps →
    save_all caps w = (Ok results, w') →
    blob_consistent w' ∧ orphan_free w'
    ∧ ∃ kept, stored w' = Ok kept ∧ NoDup (names_of kept).
Proof.
  induction caps as [|c rest IH];
    intros w clips results w' Hc Hm Hcons Horph Hnd Hold Hsorted Hrun.
  - injection Hrun as <- <-. split; [done|]. split; [done|]. by exists clips.
  - rewrite save_all_cons in Hrun.
    destruct (save_clip _ _ _ w) as [[saved|e] w1] eqn:Esave; [|discriminate].
    destruct (save_all rest w1) as [[others|e] w2] eqn:Erest; [|discriminate].
    injection Hrun as <- <-.
    apply StronglySorted_cons in Hsorted as [Hlater Hsorted].
    assert (cap_type c = "image" → blob_name (cap_now c) ∉ names_of clips) as Hfresh.
    { intros _ Hin. destruct (Hold _ Hin) as (t & Hname & Hall).
      apply Forall_cons in Hall as [Hlt _].
      apply sec_name_inj in Hname. unfold cap_sec in Hlt. lia. }
    destruct (save_clip_blob_consistent _ _ _ _ _ _ _ _ Hc Hm Hcons Hnd Hfresh Esave)
      as (Hcons1 & Hm1 & kept & Hst1 & Hnd1 & Hnames).
    pose proof (save_clip_orphan_free _ _ _ _ _ _ _ _ Hc Hm Horph Esave) as Horph1.
    apply (IH w1 kept others w2); try done.
    intros name Hin. destruct (Hnames name Hin) as [Hin'|[_ ->]].
    + destruct (Hold _ Hin') as (t & Hname & Hall).
      apply Forall_cons in Hall as [_ Hall]. eauto.
    + exists (cap_sec c). split; [reflexivity | done].
Qed.

(** X12.  The store invariants hold after every run of captures that starts
    from an empty store and whose captures fall in strictly increasing
    seconds, whatever was captured and whichever captures were
    duplicates: every stored image record has its blob on disk, every
    blob on disk is named by a stored record, and no two stored records
    name the same blob. *)
Theorem runs_in_increasing_seconds_keep_store_consistent
    (w w' : world) (m : Z) (caps : list capture) (results : list bool) :
  stored w = Ok [] → dir_blobs w = ∅ → max_clips_of w = Ok m →
  StronglySorted (λ a b, cap_sec a < cap_sec b) caps →
  save_all caps w = (Ok results, w') →
  blob_consistent w' ∧ orphan_free w'
  ∧ ∃ kept, stored w' = Ok kept ∧ NoDup (names_of kept).
Proof.
  intros Hc Hb Hm Hsorted Hrun.
  apply (save_all_keeps_invariants m caps w [] results w'); try done.
  - intros clips c name Hst Hin. rewrite Hc in Hst. injection Hst as <-.
    by apply elem_of_nil in Hin.
  - intros clips name _ [blob Hblob]. rewrite Hb, lookup_empty in Hblob. discriminate.
  - constructor.
  - intros name Hin. by apply elem_of_nil in Hin.
Qed.

End DistinctSeconds.

(** * Further properties of the window and the handler *)

Section Window.
Context `{Platform}.

Lemma show_clip_with_panel (self : FloatingWindow) (c : clip) (w : world) (p : panel) :
  _panel self = Some p →
  ∃ html title,
    show_clip self c w
    = (Ok (MkFloatingWindow
             (Some (Panel (panel_width p) (panel_height p) (panel_alpha p) title true html))
             (Some (clip_id c)) (Some c)), w).
Proof.
  intros Hp. unfold show_clip.
  assert (_ensure_panel self w = (Ok self, w)) as E by (unfold _ensure_panel; by rewrite Hp).
  rewrite (mbind_Ok _ _ _ _ _ E). destruct c as [i s t pv|i f t pv].
  - do 2 eexists. cbn. rewrite Hp. reflexivity.
  - destruct (render_image_preview_total f t w) as (html & Eh).
    erewrite mbind_Ok; cycle 1.
    { rewrite (mbind_Ok _ _ _ _ _ Eh). reflexivity. }
    do 2 eexists. cbn. rewrite Hp. reflexivity.
Qed.

Lemma show_clip_shows (self : FloatingWindow) (c : clip) (w : world) (m : Z) :
  max_clips_of w = Ok m →
  ∃ shown p, show_clip self c w = (Ok shown, w)
             ∧ _panel shown = Some p ∧ panel_visible p = true
             ∧ _current_clip_id shown = Some (clip_id c)
             ∧ _current_clip shown = Some c.
Proof.
  intros Hm. destruct (_panel self) as [p|] eqn:Hp.
  - destruct (show_clip_with_panel self c w p Hp) as (html & title & E).
    eexists _, _. split; [exact E|]. by repeat split.
  - apply load_settings_max in Hm as (st & Hs & _). unfold show_clip.
    erewrite mbind_Ok; cycle 1.
    { unfold _ensure_panel. rewrite Hp, (mbind_Ok _ _ _ _ _ Hs). reflexivity. }
    destruct c as [i s t pv|i f t pv].
    + eexists _, _. split; [reflexivity|]. by repeat split.
    + destruct (render_image_preview_total f t w) as (html & Eh).
      erewrite mbind_Ok; cycle 1.
      { rewrite (mbind_Ok _ _ _ _ _ Eh). reflexivity. }
      eexists _, _. split; [reflexivity|]. by repeat split.
Qed.

(** X13.  The window toggles on record ids.  Toggling a record whose id is the
    id of the record on screen hides the panel and keeps the document and
    the current record, even when it is another record captured in the
    same second.  In every other state toggling shows the record (the
    settings must load if the panel is yet to be created), and toggling
    it once more hides the panel again. *)
Theorem toggle_clip_transitions (self : FloatingWindow) (c : clip) (w : world) :
  (∀ p, _panel self = Some p → panel_visible p = true →
        _current_clip_id self = Some (clip_id c) →
        ∃ p', toggle_clip self c w
              = (Ok (MkFloatingWindow (Some p') (_current_clip_id self)
                                      (_current_clip self)), w)
              ∧ panel_visible p' = false
              ∧ webview_html p' = webview_html p ∧ panel_title p' = panel_title p)
  ∧ (∀ m, max_clips_of w = Ok m →
          ¬ (∃ p, _panel self = Some p ∧ panel_visible p = true
                  ∧ _current_clip_id self = Some (clip_id c)) →
          ∃ shown p hidden p',
            toggle_clip self c w = (Ok shown, w)
            ∧ _panel shown = Some p ∧ panel_visible p = true
            ∧ _current_clip shown = Some c
            ∧ toggle_clip shown c w = (Ok hidden, w)
            ∧ _panel hidden = Some p' ∧ panel_visible p' = false
            ∧ _current_clip hidden = Some c).
Proof.
  split.
  - intros p Hp Hv Hid. unfold toggle_clip. rewrite Hp, Hv.
    rewrite bool_decide_eq_true_2 by done. simpl.
    exists (Panel (panel_width p) (panel_height p) (panel_alpha p)
                  (panel_title p) false (webview_html p)).
    unfold hide. rewrite Hp. simpl. split; [reflexivity|]. by repeat split.
  - intros m Hm Hnot.
    destruct (show_clip_shows self c w m Hm) as (shown & p & E & Hp & Hv & Hid & Hcur).
    assert (toggle_clip self c w = (Ok shown, w)) as Et.
    { unfold toggle_clip. destruct (_panel self) as [p0|] eqn:Hp0; [|done].
      destruct (panel_visible p0) eqn:Hv0; [|done].
      case_bool_decide as Hid0; [|done]. exfalso. apply Hnot. eauto. }
    exists shown, p. eexists _, _. split; [done|]. split; [done|]. split; [done|].
    split; [done|]. split.
    + unfold toggle_clip. rewrite Hp, Hv.
      rewrite bool_decide_eq_true_2 by done. reflexivity.
    + unfold hide. rewrite Hp. simpl. by repeat split.
Qed.

(** X14.  Copy-back resolves against what the window shows at the moment of
    the click: after one record and then another were shown, the second
    one's text is copied, also once the panel is hidden; and as long as
    no record was ever shown, or the handler has no window, the
    pasteboard is left as it is. *)
Theorem copy_back_follows_current_record (self : FloatingWindow) (w : world) (m : Z)
    (first : clip) (id : Z) (content : string) (timestamp : Z) (preview : string)
    (pb : pasteboard) :
  max_clips_of w = Ok m →
  (∃ shown1 shown2,
     show_clip self first w = (Ok shown1, w)
     ∧ show_clip shown1 (TextClip id content timestamp preview) w = (Ok shown2, w)
     ∧ userContentController_didReceiveScriptMessage_ (Some shown2) pb w
       = (Ok [(NSPasteboardTypeString, DStr content)], w)
     ∧ userContentController_didReceiveScriptMessage_ (Some (hide shown2)) pb w
       = (Ok [(NSPasteboardTypeString, DStr content)], w))
  ∧ userContentController_didReceiveScriptMessage_ (Some FloatingWindow_init) pb w
    = (Ok pb, w)
  ∧ userContentController_didReceiveScriptMessage_ None pb w = (Ok pb, w).
Proof.
  intros Hm. split; [|by split].
  destruct (show_clip_shows self first w m Hm) as (shown1 & p1 & E1 & _).
  destruct (show_clip_shows shown1 (TextClip id content timestamp preview) w m Hm)
    as (shown2 & p2 & E2 & _ & _ & _ & Hcur).
  exists shown1, shown2. split; [done|]. split; [done|]. split.
  - by eapply copy_back_text.
  - by eapply copy_back_text.
Qed.

(** X15.  The panel is created once: its size and opacity are read from the
    settings when the first clip is shown, each missing key taking its
    default (700, 600, 0.95); later displays reuse the panel without
    reading the settings, so they keep the geometry and succeed even if
    the settings file no longer parses. *)
Theorem panel_geometry_fixed_at_creation (self : FloatingWindow) (c : clip) (w : world) :
  (∀ s, _panel self = None → load_settings w = (Ok s, w) →
        ∃ shown p,
          show_clip self c w = (Ok shown, w) ∧ _panel shown = Some p
          ∧ panel_width p = get (cfg_width (get (s_window s) (WindowCfg None None None))) 700
          ∧ panel_height p = get (cfg_height (get (s_window s) (WindowCfg None None None))) 600
          ∧ panel_alpha p
            = get (cfg_opacity (get (s_window s) (WindowCfg None None None))) (95 # 100))
  ∧ (∀ p, _panel self = Some p →
          ∃ shown p',
            show_clip self c w = (Ok shown, w) ∧ _panel shown = Some p'
            ∧ panel_width p' = panel_width p ∧ panel_height p' = panel_height p
            ∧ panel_alpha p' = panel_alpha p ∧ _current_clip shown = Some c).
Proof.
  split.
  - intros s Hp Hs. unfold show_clip.
    erewrite mbind_Ok; cycle 1.
    { unfold _ensure_panel. rewrite Hp, (mbind_Ok _ _ _ _ _ Hs). reflexivity. }
    destruct c as [i t ts pv|i f ts pv].
    + eexists _, _. split; [reflexivity|]. by repeat split.
    + destruct (render_image_preview_total f ts w) as (html & Eh).
      erewrite mbind_Ok; cycle 1.
      { rewrite (mbind_Ok _ _ _ _ _ Eh). reflexivity. }
      eexists _, _. split; [reflexivity|]. by repeat split.
  - intros p Hp. destruct (show_clip_with_panel self c w p Hp) as (html & title & E).
    eexists _, _. split; [exact E|]. by repeat split.
Qed.

End Window.

(** * Further properties of the renderer and the menu *)

Lemma list_ascii_of_string_app (x y : string) :
  list_ascii_of_string (x +:+ y)
  = (list_ascii_of_string x ++ list_ascii_of_string y)%list.
Proof. induction x as [|c x IH]; simpl; [done | by rewrite IH]. Qed.

Lemma string_app_assoc (x y z : string) : (x +:+ y) +:+ z = x +:+ y +:+ z.
Proof.
  induction x as [|c x IH]; [reflexivity|].
  change (String c ((x +:+ y) +:+ z) = String c (x +:+ y +:+ z)). by f_equal.
Qed.

Lemma html_escape_app (x y : string) :
  html_escape (x +:+ y) = html_escape x +:+ html_escape y.
Proof.
  induction x as [|c x IH]; [reflexivity|].
  change (html_escape (String c (x +:+ y))
          = html_escape (String c x) +:+ html_escape y).
  cbn [html_escape]. rewrite IH. by rewrite string_app_assoc.
Qed.

(** X16.  The body of a text document never carries markup of the clip: the
    escaped text holds no [<], [>], double quote or single quote, whatever
    the text; escaping goes character by character, and a text without
    [&] and without those four characters is rendered as it is. *)
Theorem escaped_text_has_no_markup (text : string) :
  Forall markup_free (list_ascii_of_string (html_escape text))
  ∧ (∀ more, html_escape (text +:+ more) = html_escape text +:+ html_escape more)
  ∧ (Forall (λ c, markup_free c ∧ c ≠ "&"%char) (list_ascii_of_string text) →
     html_escape text = text).
Proof.
  split; [|split].
  - induction text as [|c text IH]; [constructor|].
    cbn [html_escape]. rewrite list_ascii_of_string_app. apply Forall_app.
    split; [|done].
    destruct (Ascii.eqb c "&") eqn:E1;
      [repeat constructor; discriminate|].
    destruct (Ascii.eqb c "<") eqn:E2;
      [repeat constructor; discriminate|].
    destruct (Ascii.eqb c ">") eqn:E3;
      [repeat constructor; discriminate|].
    destruct (Ascii.eqb c "034") eqn:E4;
      [repeat constructor; discriminate|].
    destruct (Ascii.eqb c "'") eqn:E5;
      [repeat constructor; discriminate|].
    repeat constructor; by apply Ascii.eqb_neq.
  - intros more. apply html_escape_app.
  - induction text as [|c text IH]; [done|].
    simpl. intros [[(H2 & H3 & H4 & H5) H1] Hrest]%Forall_cons.
    apply Ascii.eqb_neq in H1, H2, H3, H4, H5.
    rewrite H1, H2, H3, H4, H5. simpl. f_equal. by apply IH.
Qed.


Section Notifications.
Context `{Platform}.


End Notifications.

(** * The further properties at concrete inputs *)


Lemma capture_into_missing_directory_witness :
  save_clip (H := sample_platform) 5 "image" (DBytes png1) fresh_world
  = (Raise FileNotFoundError, fresh_world).
Proof.
  apply (capture_into_missing_directory (H := sample_platform) fresh_world 50);
    reflexivity.
Defined.

Lemma negative_max_clips_destroys_blobs_witness :
  ∃ w', save_clip (H := sample_platform) 9 "text" (DStr "a") negative_store
        = (Raise IndexError, w')
        ∧ stored w' = Ok [orphan] ∧ ¬ on_disk "img_5.png" w'.
Proof.
  destruct (negative_max_clips_destroys_blobs (H := sample_platform)
              negative_store [orphan] (-1) eq_refl eq_refl) as [_ Hraise]; [lia|].
  destruct (Hraise 9%Q "a") as (w' & Hsave & Hst & Hgone).
  - vm_compute. discriminate.
  - exists w'. split; [exact Hsave|]. split; [exact Hst|].
    apply (Hgone orphan); [apply list_elem_of_here | reflexivity].
Defined.

Lemma zero_max_clips_keeps_nothing_witness :
  stored (snd (save_clip (H := sample_platform) 5 "image" (DBytes png1) (empty_store 0)))
  = Ok [].
Proof.
  apply (zero_max_clips_keeps_nothing (H := sample_platform) (empty_store 0) []
           (Capture 5 "image" (DBytes png1))).
  - reflexivity.
  - reflexivity.
  - right. reflexivity.
  - vm_compute. reflexivity.
Defined.

Lemma capture_keeps_older_records_witness :
  SETTINGS_PATH (snd (save_clip (H := sample_platform) 9 "text" (DStr "a") backed_store))
  = SETTINGS_PATH backed_store.
Proof.
  apply (capture_keeps_older_records (H := sample_platform) 9 "text" (DStr "a")
           backed_store _ [orphan] 50 true).
  - reflexivity.
  - reflexivity.
  - vm_compute. reflexivity.
Defined.

Lemma backed_store_consistent : blob_consistent backed_store.
Proof.
  intros clips c name Hst Hin Hname. injection Hst as <-.
  apply list_elem_of_singleton in Hin. subst c. injection Hname as <-.
  exists png1. vm_compute. reflexivity.
Defined.

Lemma backed_store_orphan_free : orphan_free backed_store.
Proof.
  intros clips name Hst [blob Hblob]. injection Hst as <-.
  destruct (decide (name = "img_5.png")) as [->|Hne].
  - apply list_elem_of_here.
  - unfold backed_store, dir_blobs in Hblob. simpl in Hblob.
    rewrite lookup_singleton_ne in Hblob by done. discriminate.
Defined.

Lemma capture_keeps_blobs_of_stored_records_witness :
  blob_consistent
    (snd (save_clip (H := sample_platform) 9 "image" (DBytes png2) backed_store)).
Proof.
  apply (capture_keeps_blobs_of_stored_records (H := sample_platform) 9 "image"
           (DBytes png2) backed_store _ [orphan] 50 true).
  - reflexivity.
  - reflexivity.
  - exact backed_store_consistent.
  - vm_compute. apply NoDup_cons. split; [apply not_elem_of_nil | apply NoDup_nil_2].
  - intros _ Hin. apply list_elem_of_singleton in Hin. vm_compute in Hin. discriminate.
  - vm_compute. reflexivity.
Defined.

Lemma capture_leaves_no_orphan_witness :
  orphan_free
    (snd (save_clip (H := sample_platform) 9 "image" (DBytes png2) backed_store)).
Proof.
  apply (capture_leaves_no_orphan (H := sample_platform) 9 "image"
           (DBytes png2) backed_store _ [orphan] 50 true).
  - reflexivity.
  - reflexivity.
  - exact backed_store_orphan_free.
  - vm_compute. reflexivity.
Defined.

Lemma repeated_capture_is_duplicate_witness :
  save_clip (H := sample_platform) 7 "text" (DStr "a")
    (snd (save_clip (H := sample_platform) 6 "text" (DStr "a") backed_store))
  = (Ok false, snd (save_clip (H := sample_platform) 6 "text" (DStr "a") backed_store)).
Proof.
  apply (repeated_capture_is_duplicate (H := sample_platform) backed_store _
           [orphan] 50 true 6 7).
  - reflexivity.
  - reflexivity.
  - lia.
  - vm_compute. reflexivity.
Defined.

Lemma clear_all_clips_deletes_only_record_blobs_witness :
  ∃ w', clear_all_clips backed_store = (Ok (), w') ∧ dir_blobs w' = ∅.
Proof.
  destruct (clear_all_clips_deletes_only_record_blobs backed_store [orphan] eq_refl)
    as (w' & Hclear & _ & _ & _ & Hempty).
  exists w'. split; [exact Hclear|]. apply Hempty. exact backed_store_orphan_free.
Defined.

Lemma malformed_index_blocks_store_witness :
  clear_all_clips corrupt_store = (Raise JSONDecodeError, corrupt_store).
Proof.
  apply (malformed_index_blocks_store (H := sample_platform) corrupt_store).
  reflexivity.
Defined.

Lemma runs_in_increasing_seconds_keep_store_consistent_witness :
  blob_consistent (snd (save_all (H := sample_platform) spaced_run (empty_store 1))).
Proof.
  apply (runs_in_increasing_seconds_keep_store_consistent (H := sample_platform)
           (empty_store 1) _ 1 spaced_run [true; true]).
  - reflexivity.
  - reflexivity.
  - reflexivity.
  - repeat constructor.
  - vm_compute. reflexivity.
Defined.

Lemma toggle_clip_transitions_witness :
  ∃ p', toggle_clip (H := sample_platform) orphan_window orphan orphan_store
        = (Ok (MkFloatingWindow (Some p') (Some 5) (Some orphan)), orphan_store)
        ∧ panel_visible p' = false.
Proof.
  destruct (toggle_clip_transitions (H := sample_platform) orphan_window orphan
              orphan_store) as [Hhide _].
  destruct (Hhide _ eq_refl eq_refl eq_refl) as (p' & Htoggle & Hv & _).
  exists p'. split; [exact Htoggle | exact Hv].
Defined.

Lemma copy_back_follows_current_record_witness :
  ∃ shown1 shown2,
    show_clip (H := sample_platform) FloatingWindow_init orphan orphan_store
    = (Ok shown1, orphan_store)
    ∧ show_clip (H := sample_platform) shown1 (TextClip 6 "b" 6 "b") orphan_store
      = (Ok shown2, orphan_store)
    ∧ userContentController_didReceiveScriptMessage_ (Some shown2) [] orphan_store
      = (Ok [(NSPasteboardTypeString, DStr "b")], orphan_store).
Proof.
  destruct (copy_back_follows_current_record (H := sample_platform)
              FloatingWindow_init orphan_store 50 orphan 6 "b" 6 "b" [] eq_refl)
    as ((shown1 & shown2 & E1 & E2 & Hcopy & _) & _).
  exists shown1, shown2. split; [exact E1|]. split; [exact E2 | exact Hcopy].
Defined.

Lemma panel_geometry_fixed_at_creation_witness :
  ∃ shown p',
    show_clip (H := sample_platform) orphan_window orphan (World None Malformed)
    = (Ok shown, World None Malformed)
    ∧ _panel shown = Some p' ∧ panel_width p' = 700.
Proof.
  destruct (panel_geometry_fixed_at_creation (H := sample_platform) orphan_window
              orphan (World None Malformed)) as [_ Hkeep].
  destruct (Hkeep _ eq_refl) as (shown & p' & E & Hp & Hw & _).
  exists shown, p'. split; [exact E|]. split; [exact Hp | exact Hw].
Defined.

Lemma escaped_text_has_no_markup_witness : html_escape "plain text" = "plain text".
Proof.
  apply (escaped_text_has_no_markup "plain text").
  repeat constructor; discriminate.
Defined.


